(** * CognitoUser: the authentication state machine of amazon-cognito-identity-js

    A shallow embedding of [src/CognitoUser.js].  The JavaScript object
    [this], the browser's [window.localStorage] and the identity provider
    are made explicit: every method becomes a computation over a [World]
    that holds the user object, the storage, the replies the provider is
    going to give, and the trace of everything observable the method did
    (requests sent, storage writes, callbacks invoked). *)

From Stdlib Require Import ZArith List Ascii String.
From stdpp Require Import base strings gmap list.
Import ListNotations.

Local Open Scope string_scope.
Local Open Scope list_scope.
Local Open Scope Z_scope.

(** ** JavaScript values *)

(** The fields the code handles are strings that may also be [undefined]
    (never assigned, or a property that is missing) or [null]. *)
Inductive jsval : Type :=
| undefined
| null
| str (s : string).

#[global] Instance jsval_eq_dec : EqDecision jsval.
Proof. solve_decision. Defined.

(** [v != null]: neither [null] nor [undefined]. *)
Definition not_nullish (v : jsval) : bool :=
  match v with
  | str _ => true
  | _ => false
  end.

(** Truthiness, as tested by [if (v)]: the empty string is falsy too. *)
Definition truthy (v : jsval) : bool :=
  match v with
  | str s => negb (bool_decide (s = ""))
  | _ => false
  end.

(** [v === 'literal'] *)
Definition strict_eq (v : jsval) (s : string) : bool :=
  match v with
  | str t => bool_decide (t = s)
  | _ => false
  end.

(** String conversion, as done by [+] with a string and by [setItem]. *)
Definition to_string (v : jsval) : string :=
  match v with
  | undefined => "undefined"
  | null => "null"
  | str s => s
  end.

(** Reading a property of an object used as a map: a missing property
    reads as [undefined]. *)
Definition prop (o : gmap string string) (k : string) : jsval :=
  match o !! k with
  | Some s => str s
  | None => undefined
  end.

(** ** window.localStorage *)

Definition getItem (storage : gmap string string) (k : string) : jsval :=
  match storage !! k with
  | Some s => str s
  | None => null
  end.

(** ** The user pool *)

Record CognitoUserPool : Type := {
  userPoolId : string;
  clientId : string;
  poolParanoia : Z
}.

Definition getUserPoolId (p : CognitoUserPool) : string := userPoolId p.
Definition getClientId (p : CognitoUserPool) : string := clientId p.
Definition getParanoia (p : CognitoUserPool) : Z := poolParanoia p.

(** [s.split('_')]: the pieces of [s] between underscores. *)
Fixpoint split_underscore (s : string) : list string :=
  match s with
  | EmptyString => [EmptyString]
  | String c rest =>
      if bool_decide (c = "_"%char) then EmptyString :: split_underscore rest
      else match split_underscore rest with
           | [] => [String c EmptyString]
           | piece :: pieces => String c piece :: pieces
           end
  end.

(** [a[i]] on an array of strings: [undefined] out of range. *)
Definition index (a : list string) (i : nat) : jsval :=
  match a !! i with
  | Some s => str s
  | None => undefined
  end.

(** [pool.getUserPoolId().split('_')[1]] *)
Definition poolName (p : CognitoUserPool) : jsval :=
  index (split_underscore (getUserPoolId p)) 1.

(** ** Tokens and sessions *)

(** Modelled from the spec: the token classes [CognitoIdToken],
    [CognitoAccessToken], [CognitoRefreshToken] and [CognitoUserSession]
    are imported by [CognitoUser.js] but are not among the sources.  Per
    the spec a session wraps three bearer tokens kept in their original
    encoding, and is valid iff both the ID and the access token expire
    strictly after now.  A wrapper keeps the value it is built from. *)
Record CognitoIdToken : Type := { idJwtToken : jsval }.
Record CognitoAccessToken : Type := { accessJwtToken : jsval }.
Record CognitoRefreshToken : Type := { token : jsval }.

Definition getToken (t : CognitoRefreshToken) : jsval := token t.

Record CognitoUserSession : Type := {
  sessIdToken : CognitoIdToken;
  sessAccessToken : CognitoAccessToken;
  sessRefreshToken : CognitoRefreshToken
}.

Definition getIdToken (s : CognitoUserSession) := sessIdToken s.
Definition getAccessToken (s : CognitoUserSession) := sessAccessToken s.
Definition getRefreshToken (s : CognitoUserSession) := sessRefreshToken s.

(** ** Provider data *)

Module Data.

Record NewDeviceMetadataType : Type := {
  DeviceGroupKey : jsval;
  DeviceKey : jsval
}.

(** [RefreshToken] is an option because [refreshSession] asks
    [hasOwnProperty('RefreshToken')]: [None] is a missing property. *)
Record AuthenticationResultType : Type := {
  IdToken : jsval;
  AccessToken : jsval;
  RefreshToken : option jsval;
  NewDeviceMetadata : option NewDeviceMetadataType
}.

(** The [data] object a provider call returns.  Every property may be
    missing: a missing string reads as [undefined], a missing object is
    [None]. *)
Record ResponseData : Type := {
  ChallengeName : jsval;
  ChallengeParameters : option (gmap string string);
  Session : jsval;
  AuthenticationResult : option AuthenticationResultType;
  UserConfirmationNecessary : option bool;
  UserAttributes : list (jsval * jsval)
}.

End Data.

(** An error value: one made locally by [new Error(message)], or one the
    provider returned. *)
Inductive JsError : Type :=
| Error (message : string)
| ProviderError (code : string).

(** What the callback of [makeUnauthenticatedRequest] receives:
    [(err, data)] with a truthy [err], or [data] (which may be null). *)
Inductive Reply : Type :=
| Failed (err : JsError)
| Returned (data : option Data.ResponseData).

(** A request parameter. *)
Inductive Param : Type :=
| PVal (v : jsval)
| PNum (n : Z)
| PObj (o : gmap string jsval)
| PArr (items : list (gmap string jsval))
| PStrs (names : list string).

(** [makeUnauthenticatedRequest(operation, params, ...)] *)
Record Request : Type := {
  operation : string;
  params : list (string * Param)
}.

(** [params.Name] *)
Fixpoint param (ps : list (string * Param)) (name : string) : option Param :=
  match ps with
  | [] => None
  | (k, v) :: rest => if bool_decide (k = name) then Some v else param rest name
  end.

(** ** The user object *)

(** [deviceKey], [randomPassword], [deviceGroupKey], [verifierDevices] and
    [deviceGroupkey] are not set by the constructor: they are [undefined]
    until a method assigns them.  [deviceGroupkey] (small k) is the
    property [forgetDevice] assigns. *)
#[projections(primitive)]
Record CognitoUser : Type := {
  username : jsval;
  pool : CognitoUserPool;
  Session : jsval;
  signInUserSession : option CognitoUserSession;
  authenticationFlowType : string;
  deviceKey : jsval;
  randomPassword : jsval;
  deviceGroupKey : jsval;
  deviceGroupkey : jsval;
  verifierDevices : jsval
}.

Definition set_username (v : jsval) (u : CognitoUser) : CognitoUser :=
  {| username := v; pool := pool u; Session := Session u;
     signInUserSession := signInUserSession u;
     authenticationFlowType := authenticationFlowType u;
     deviceKey := deviceKey u; randomPassword := randomPassword u;
     deviceGroupKey := deviceGroupKey u; deviceGroupkey := deviceGroupkey u;
     verifierDevices := verifierDevices u |}.

Definition set_Session (v : jsval) (u : CognitoUser) : CognitoUser :=
  {| username := username u; pool := pool u; Session := v;
     signInUserSession := signInUserSession u;
     authenticationFlowType := authenticationFlowType u;
     deviceKey := deviceKey u; randomPassword := randomPassword u;
     deviceGroupKey := deviceGroupKey u; deviceGroupkey := deviceGroupkey u;
     verifierDevices := verifierDevices u |}.

Definition set_signInUserSession (v : option CognitoUserSession) (u : CognitoUser)
  : CognitoUser :=
  {| username := username u; pool := pool u; Session := Session u;
     signInUserSession := v;
     authenticationFlowType := authenticationFlowType u;
     deviceKey := deviceKey u; randomPassword := randomPassword u;
     deviceGroupKey := deviceGroupKey u; deviceGroupkey := deviceGroupkey u;
     verifierDevices := verifierDevices u |}.

Definition set_authenticationFlowType (v : string) (u : CognitoUser) : CognitoUser :=
  {| username := username u; pool := pool u; Session := Session u;
     signInUserSession := signInUserSession u;
     authenticationFlowType := v;
     deviceKey := deviceKey u; randomPassword := randomPassword u;
     deviceGroupKey := deviceGroupKey u; deviceGroupkey := deviceGroupkey u;
     verifierDevices := verifierDevices u |}.

Definition set_deviceKey (v : jsval) (u : CognitoUser) : CognitoUser :=
  {| username := username u; pool := pool u; Session := Session u;
     signInUserSession := signInUserSession u;
     authenticationFlowType := authenticationFlowType u;
     deviceKey := v; randomPassword := randomPassword u;
     deviceGroupKey := deviceGroupKey u; deviceGroupkey := deviceGroupkey u;
     verifierDevices := verifierDevices u |}.

Definition set_randomPassword (v : jsval) (u : CognitoUser) : CognitoUser :=
  {| username := username u; pool := pool u; Session := Session u;
     signInUserSession := signInUserSession u;
     authenticationFlowType := authenticationFlowType u;
     deviceKey := deviceKey u; randomPassword := v;
     deviceGroupKey := deviceGroupKey u; deviceGroupkey := deviceGroupkey u;
     verifierDevices := verifierDevices u |}.

Definition set_deviceGroupKey (v : jsval) (u : CognitoUser) : CognitoUser :=
  {| username := username u; pool := pool u; Session := Session u;
     signInUserSession := signInUserSession u;
     authenticationFlowType := authenticationFlowType u;
     deviceKey := deviceKey u; randomPassword := randomPassword u;
     deviceGroupKey := v; deviceGroupkey := deviceGroupkey u;
     verifierDevices := verifierDevices u |}.

Definition set_deviceGroupkey (v : jsval) (u : CognitoUser) : CognitoUser :=
  {| username := username u; pool := pool u; Session := Session u;
     signInUserSession := signInUserSession u;
     authenticationFlowType := authenticationFlowType u;
     deviceKey := deviceKey u; randomPassword := randomPassword u;
     deviceGroupKey := deviceGroupKey u; deviceGroupkey := v;
     verifierDevices := verifierDevices u |}.

Definition set_verifierDevices (v : jsval) (u : CognitoUser) : CognitoUser :=
  {| username := username u; pool := pool u; Session := Session u;
     signInUserSession := signInUserSession u;
     authenticationFlowType := authenticationFlowType u;
     deviceKey := deviceKey u; randomPassword := randomPassword u;
     deviceGroupKey := deviceGroupKey u; deviceGroupkey := deviceGroupkey u;
     verifierDevices := v |}.

(** The constructor: [Username] and [Pool] are required, a falsy username
    becomes the empty string. *)
Definition new_CognitoUser (Username : jsval) (Pool : option CognitoUserPool)
  : option CognitoUser :=
  match Pool with
  | Some p =>
      if not_nullish Username then
        Some {| username := if truthy Username then Username else str "";
                pool := p; Session := null; signInUserSession := None;
                authenticationFlowType := "USER_SRP_AUTH";
                deviceKey := undefined; randomPassword := undefined;
                deviceGroupKey := undefined; deviceGroupkey := undefined;
                verifierDevices := undefined |}
      else None
  | None => None
  end.

(** [AuthenticationDetails], the second class of the sources. *)
Record AuthenticationDetails : Type := {
  validationData : list (gmap string jsval);
  detailsUsername : jsval;
  detailsPassword : jsval
}.

Definition getUsername (d : AuthenticationDetails) : jsval := detailsUsername d.
Definition getPassword (d : AuthenticationDetails) : jsval := detailsPassword d.
Definition getValidationData (d : AuthenticationDetails) : list (gmap string jsval) :=
  validationData d.

(** The attribute objects the callback of [getUserAttributes] is meant
    to receive. *)
Record CognitoUserAttribute : Type := {
  Name : jsval;
  Value : jsval
}.

(** ** Callbacks, events, worlds *)

(** An argument passed to the caller's callback. *)
Inductive Arg : Type :=
| AErr (e : JsError)
| ANull
| AStr (s : string)
| AVal (v : jsval)
| ABool (b : bool)
| ASession (s : option CognitoUserSession)
| AData (d : option Data.ResponseData)
| AParams (p : option (gmap string string))
| AAttrs (l : list CognitoUserAttribute).

(** How the caller's callback is invoked: [callback(...)] itself, or one
    of its members, [callback.onSuccess(...)] and so on. *)
Inductive Callback : Type :=
| callback (args : list Arg)
| onSuccess (args : list Arg)
| onFailure (args : list Arg)
| mfaRequired (args : list Arg)
| customChallenge (args : list Arg)
| inputVerificationCode (args : list Arg).

Inductive Event : Type :=
| Sent (r : Request)
| SetItem (k v : string)
| RemoveItem (k : string)
| Invoked (c : Callback).

(** The state a method runs in.  [replies] are the answers the provider
    will give to the next requests, in order; [time] counts the replies
    received so far and [draws] the random values drawn so far. *)
#[projections(primitive)]
Record World : Type := {
  this : CognitoUser;
  localStorage : gmap string string;
  replies : list Reply;
  time : nat;
  draws : nat;
  trace : list Event
}.

Definition set_this (u : CognitoUser) (w : World) : World :=
  {| this := u; localStorage := localStorage w; replies := replies w;
     time := time w; draws := draws w; trace := trace w |}.

Definition set_localStorage (st : gmap string string) (w : World) : World :=
  {| this := this w; localStorage := st; replies := replies w;
     time := time w; draws := draws w; trace := trace w |}.

Definition log (e : Event) (w : World) : World :=
  {| this := this w; localStorage := localStorage w; replies := replies w;
     time := time w; draws := draws w; trace := trace w ++ [e] |}.

(** ** The monad of methods *)

(** A method runs to its end ([Done]), throws ([Threw]: reading a
    property of [undefined] or [null] raises a TypeError nobody catches),
    or stays suspended on a request the provider has not answered
    ([Waiting]). *)
Inductive Outcome (A : Type) : Type :=
| Done (a : A) (w : World)
| Threw (w : World)
| Waiting (w : World).

Arguments Done {A} a w.
Arguments Threw {A} w.
Arguments Waiting {A} w.

Definition M (A : Type) : Type := World -> Outcome A.

Definition ret {A : Type} (a : A) : M A := fun w => Done a w.

Definition bind {A B : Type} (m : M A) (k : A -> M B) : M B :=
  fun w =>
    match m w with
    | Done a w' => k a w'
    | Threw w' => Threw w'
    | Waiting w' => Waiting w'
    end.

Declare Scope js_scope.
Delimit Scope js_scope with js.
Notation "x <- m ;; k" := (bind m (fun x => k))
  (at level 100, m at next level, right associativity) : js_scope.
Notation "m ;; k" := (bind m (fun _ => k))
  (at level 100, right associativity) : js_scope.
Local Open Scope js_scope.

Definition throw {A : Type} : M A := fun w => Threw w.

Definition get_this : M CognitoUser := fun w => Done (this w) w.
Definition get_storage : M (gmap string string) := fun w => Done (localStorage w) w.
Definition assign (f : CognitoUser -> CognitoUser) : M unit :=
  fun w => Done tt (set_this (f (this w)) w).

(** [storage.setItem(k, v)]: the value is converted to a string. *)
Definition setItem (k : string) (v : jsval) : M unit :=
  fun w => Done tt (log (SetItem k (to_string v))
                        (set_localStorage (<[k := to_string v]> (localStorage w)) w)).

(** [storage.removeItem(k)] *)
Definition removeItem (k : string) : M unit :=
  fun w => Done tt (log (RemoveItem k)
                        (set_localStorage (delete k (localStorage w)) w)).

(** Invoking the caller's callback ends the method. *)
Definition invoke (c : Callback) : M unit :=
  fun w => Done tt (log (Invoked c) w).

(** [this.client.makeUnauthenticatedRequest(operation, params, cb)]: the
    request goes out, and the continuation runs on the provider's reply. *)
Definition makeUnauthenticatedRequest (op : string) (ps : list (string * Param))
  : M Reply :=
  fun w =>
    let w' := log (Sent {| operation := op; params := ps |}) w in
    match replies w' with
    | [] => Waiting w'
    | r :: rest =>
        Done r {| this := this w'; localStorage := localStorage w';
                  replies := rest; time := S (time w'); draws := draws w';
                  trace := trace w' |}
    end.

(** Reading a property of [data]: a TypeError when [data] is missing. *)
Definition field {O A : Type} (o : option O) (f : O -> A) : M A :=
  match o with
  | Some x => ret (f x)
  | None => throw
  end.

(** ** The collaborators that are not part of the sources *)

(** An [AuthenticationHelper] object: the pool name and paranoia it was
    built with, the randomness it drew, and the arguments of the last
    [generateHashDevice] call if there was one. *)
Record AuthenticationHelper : Type := {
  helperPoolName : jsval;
  helperParanoia : Z;
  helperSeed : N;
  hashDevice : option (jsval * jsval)
}.

(** Modelled from the spec: the SRP engine ([AuthenticationHelper]), the
    challenge signer (sjcl's HMAC-SHA256 and codecs), [DateHelper], the
    clock, the random source, the browser's [navigator.userAgent] and the
    decoding of a token's expiry claim are used by [CognitoUser.js] but
    are not among the sources.  They are taken as parameters; every
    theorem below holds for all of them.  [getLargeAValue] stands for
    [getLargeAValue().toString(16)].  [derive_shared_key] is the key
    derivation of the SRP engine, which the helper's
    [getPasswordAuthenticationKey] runs: it receives the user name, the
    password and [SRP_B] and [SALT] as sent (before
    [new BigInteger(_, 16)]), and it rejects ([None]) a server value it
    cannot accept: [B mod N = 0], [u = 0] or [S = 0].  [sign] is the
    challenge signer: the base64 of the HMAC keyed by [hkdf] over the
    pool name, the user name, the secret block and the timestamp; it
    receives the secret block as sent, before its base64 decoding, and
    there is no signature ([None]) for a secret block that cannot be
    decoded. *)
Class Externals : Type := {
  entropy : nat -> N;
  getNowString : nat -> string;
  nowSeconds : nat -> Z;
  userAgent : string;
  getExpiration : jsval -> Z;
  getLargeAValue : AuthenticationHelper -> string;
  derive_shared_key :
    AuthenticationHelper -> jsval -> jsval -> jsval -> jsval -> option string;
  sign : string -> jsval -> jsval -> jsval -> string -> option string;
  getSaltDevices : AuthenticationHelper -> string;
  getVerifierDevices : AuthenticationHelper -> string;
  getVerifierDevicesBits : AuthenticationHelper -> string;
  getRandomPassword : AuthenticationHelper -> jsval
}.

Section CognitoUser.

Context {ext : Externals}.

(** [new AuthenticationHelper(poolName, paranoia)] draws fresh randomness. *)
Definition new_AuthenticationHelper (name : jsval) (par : Z) : M AuthenticationHelper :=
  fun w =>
    Done {| helperPoolName := name; helperParanoia := par;
            helperSeed := entropy (draws w); hashDevice := None |}
         {| this := this w; localStorage := localStorage w; replies := replies w;
            time := time w; draws := S (draws w); trace := trace w |}.

Definition generateHashDevice (h : AuthenticationHelper) (groupKey key : jsval)
  : AuthenticationHelper :=
  {| helperPoolName := helperPoolName h; helperParanoia := helperParanoia h;
     helperSeed := helperSeed h; hashDevice := Some (groupKey, key) |}.

(** [authenticationHelper.getPasswordAuthenticationKey(username, password,
    serverBValue, salt)]: a rejected derivation is an exception, which
    nothing in the source catches. *)
Definition getPasswordAuthenticationKey (h : AuthenticationHelper)
    (user password serverBValue salt : jsval) : M string :=
  match derive_shared_key h user password serverBValue salt with
  | Some hkdf => ret hkdf
  | None => throw
  end.

(** The lines from [sjcl.codec.base64.toBits(challengeParameters.SECRET_BLOCK)]
    to [const signatureString = sjcl.codec.base64.fromBits(signature)]:
    a secret block that cannot be decoded is an exception, which nothing
    in the source catches. *)
Definition signatureString (hkdf : string) (name user secretBlock : jsval)
    (dateNow : string) : M string :=
  match sign hkdf name user secretBlock dateNow with
  | Some signature => ret signature
  | None => throw
  end.

(** [dateHelper.getNowString()] *)
Definition now_string : M string := fun w => Done (getNowString (time w)) w.

(** [session.isValid()]: both expiry claims are strictly in the future. *)
Definition isValid (now : Z) (s : CognitoUserSession) : bool :=
  (now <? getExpiration (accessJwtToken (getAccessToken s)))
  && (now <? getExpiration (idJwtToken (getIdToken s))).

(** [this.signInUserSession != null && this.signInUserSession.isValid()] *)
Definition authenticated : M bool :=
  fun w =>
    Done match signInUserSession (this w) with
         | Some s => isValid (nowSeconds (time w)) s
         | None => false
         end w.

(** ** Cache keys *)

(** ['CognitoIdentityServiceProvider.' + clientId + '.' + username + '.' + field],
    the expression every cache function of the source repeats. *)
Definition cacheKey (client : string) (user : jsval) (name : string) : string :=
  "CognitoIdentityServiceProvider." +:+ client +:+ "."
    +:+ to_string user +:+ "." +:+ name.

(** ['CognitoIdentityServiceProvider.' + clientId + '.LastAuthUser'] *)
Definition lastAuthUserKey (client : string) : string :=
  "CognitoIdentityServiceProvider." +:+ client +:+ ".LastAuthUser".

(** The two expressions at [this.pool.getClientId()] and [this.username]. *)
Definition userKey (u : CognitoUser) (name : string) : string :=
  cacheKey (getClientId (pool u)) (username u) name.

Definition lastUserKey (u : CognitoUser) : string :=
  lastAuthUserKey (getClientId (pool u)).

(** ** Sessions and the cache *)

(** [getCognitoUserSession(authResult)]: each token constructor reads its
    property of [authResult]. *)
Definition getCognitoUserSession (authResult : option Data.AuthenticationResultType)
  : M CognitoUserSession :=
  idv <- field authResult Data.IdToken;;
  accessv <- field authResult Data.AccessToken;;
  refreshv <- field authResult Data.RefreshToken;;
  ret {| sessIdToken := {| idJwtToken := idv |};
         sessAccessToken := {| accessJwtToken := accessv |};
         sessRefreshToken := {| token := default undefined refreshv |} |}.

Definition cacheTokens : M unit :=
  u <- get_this;;
  let idTokenKey := userKey u "idToken" in
  let accessTokenKey := userKey u "accessToken" in
  let refreshTokenKey := userKey u "refreshToken" in
  let lastUserKey := lastUserKey u in
  idv <- field (signInUserSession u) (fun s => idJwtToken (getIdToken s));;
  setItem idTokenKey idv;;
  accessv <- field (signInUserSession u) (fun s => accessJwtToken (getAccessToken s));;
  setItem accessTokenKey accessv;;
  refreshv <- field (signInUserSession u) (fun s => getToken (getRefreshToken s));;
  setItem refreshTokenKey refreshv;;
  setItem lastUserKey (username u).

Definition cacheDeviceKeyAndPassword : M unit :=
  u <- get_this;;
  let deviceKeyKey := userKey u "deviceKey" in
  let randomPasswordKey := userKey u "randomPasswordKey" in
  let deviceGroupKeyKey := userKey u "deviceGroupKey" in
  setItem deviceKeyKey (deviceKey u);;
  setItem randomPasswordKey (randomPassword u);;
  setItem deviceGroupKeyKey (deviceGroupKey u).

Definition getCachedDeviceKeyAndPassword : M unit :=
  u <- get_this;;
  storage <- get_storage;;
  let deviceKeyKey := userKey u "deviceKey" in
  let randomPasswordKey := userKey u "randomPasswordKey" in
  let deviceGroupKeyKey := userKey u "deviceGroupKey" in
  if truthy (getItem storage deviceKeyKey) then
    assign (set_deviceKey (getItem storage deviceKeyKey));;
    assign (set_randomPassword (getItem storage randomPasswordKey));;
    assign (set_deviceGroupKey (getItem storage deviceGroupKeyKey))
  else ret tt.

Definition clearCachedDeviceKeyAndPassword : M unit :=
  u <- get_this;;
  let deviceKeyKey := userKey u "deviceKey" in
  let randomPasswordKey := userKey u "randomPasswordKey" in
  let deviceGroupKeyKey := userKey u "deviceGroupKey" in
  removeItem deviceKeyKey;;
  removeItem randomPasswordKey;;
  removeItem deviceGroupKeyKey.

Definition clearCachedTokens : M unit :=
  u <- get_this;;
  let idTokenKey := userKey u "idToken" in
  let accessTokenKey := userKey u "accessToken" in
  let refreshTokenKey := userKey u "refreshToken" in
  let lastUserKey := lastUserKey u in
  removeItem idTokenKey;;
  removeItem accessTokenKey;;
  removeItem refreshTokenKey;;
  removeItem lastUserKey.

Definition signOut : M unit :=
  assign (set_signInUserSession None);;
  clearCachedTokens.

(** [this.signInUserSession.getAccessToken().getJwtToken()] *)
Definition accessTokenOfSession : M jsval :=
  u <- get_this;;
  field (signInUserSession u) (fun s => accessJwtToken (getAccessToken s)).

(** ** Authentication *)

(** The new-device step that ends both [authenticateUser] and
    [sendMFACode] (the two copies in the source differ only in where the
    helper comes from): with [NewDeviceMetadata] in the result, generate
    the device secrets, call [confirmDevice], and report. *)
Definition confirmNewDevice (authenticationHelper : AuthenticationHelper)
    (authResult : Data.AuthenticationResultType) : M unit :=
  match Data.NewDeviceMetadata authResult with
  | Some newDevice =>
      let deviceStuff :=
        generateHashDevice authenticationHelper
          (Data.DeviceGroupKey newDevice) (Data.DeviceKey newDevice) in
      let deviceSecretVerifierConfig : gmap string jsval :=
        <["PasswordVerifier" := str (getVerifierDevices deviceStuff)]>
          (<["Salt" := str (getSaltDevices deviceStuff)]> ∅) in
      assign (set_verifierDevices (str (getVerifierDevicesBits deviceStuff)));;
      assign (set_deviceGroupKey (Data.DeviceGroupKey newDevice));;
      assign (set_randomPassword (getRandomPassword deviceStuff));;
      accessToken <- accessTokenOfSession;;
      r <- makeUnauthenticatedRequest "confirmDevice"
             [("DeviceKey", PVal (Data.DeviceKey newDevice));
              ("AccessToken", PVal accessToken);
              ("DeviceSecretVerifierConfig", PObj deviceSecretVerifierConfig);
              ("DeviceName", PVal (str userAgent))];;
      match r with
      | Failed errConfirm => invoke (onFailure [AErr errConfirm])
      | Returned dataConfirm =>
          assign (set_deviceKey (Data.DeviceKey newDevice));;
          cacheDeviceKeyAndPassword;;
          necessary <- field dataConfirm Data.UserConfirmationNecessary;;
          self <- get_this;;
          if bool_decide (necessary = Some true) then
            invoke (onSuccess [ASession (signInUserSession self); ABool true])
          else
            invoke (onSuccess [ASession (signInUserSession self)])
      end
  | None =>
      self <- get_this;;
      invoke (onSuccess [ASession (signInUserSession self)])
  end.

Definition getDeviceResponse : M unit :=
  u <- get_this;;
  authenticationHelper <-
    new_AuthenticationHelper (deviceGroupKey u) (getParanoia (pool u));;
  let authParameters : gmap string jsval :=
    <["SRP_A" := str (getLargeAValue authenticationHelper)]>
      (<["DEVICE_KEY" := deviceKey u]>
         (<["USERNAME" := username u]> ∅)) in
  r <- makeUnauthenticatedRequest "respondToAuthChallenge"
         [("ChallengeName", PVal (str "DEVICE_SRP_AUTH"));
          ("ClientId", PVal (str (getClientId (pool u))));
          ("ChallengeResponses", PObj authParameters)];;
  match r with
  | Failed err => invoke (onFailure [AErr err])
  | Returned data =>
      parameters <- field data Data.ChallengeParameters;;
      challengeParameters <- field parameters id;;
      self <- get_this;;
      hkdf <-
        getPasswordAuthenticationKey authenticationHelper
          (deviceKey self) (randomPassword self)
          (prop challengeParameters "SRP_B") (prop challengeParameters "SALT");;
      dateNow <- now_string;;
      signature <-
        signatureString hkdf (deviceGroupKey self) (deviceKey self)
          (prop challengeParameters "SECRET_BLOCK") dateNow;;
      let challengeResponses : gmap string jsval :=
        <["DEVICE_KEY" := deviceKey self]>
          (<["PASSWORD_CLAIM_SIGNATURE" := str signature]>
             (<["TIMESTAMP" := str dateNow]>
                (<["PASSWORD_CLAIM_SECRET_BLOCK" := prop challengeParameters "SECRET_BLOCK"]>
                   (<["USERNAME" := username self]> ∅)))) in
      session <- field data Data.Session;;
      r' <- makeUnauthenticatedRequest "respondToAuthChallenge"
              [("ChallengeName", PVal (str "DEVICE_PASSWORD_VERIFIER"));
               ("ClientId", PVal (str (getClientId (pool self))));
               ("ChallengeResponses", PObj challengeResponses);
               ("Session", PVal session)];;
      match r' with
      | Failed errAuthenticate => invoke (onFailure [AErr errAuthenticate])
      | Returned dataAuthenticate =>
          authResult <- field dataAuthenticate Data.AuthenticationResult;;
          newSession <- getCognitoUserSession authResult;;
          assign (set_signInUserSession (Some newSession));;
          cacheTokens;;
          self' <- get_this;;
          invoke (onSuccess [ASession (signInUserSession self')])
      end
  end.

(** The callback [authenticateUser] passes with its PASSWORD_VERIFIER
    request; [authenticationHelper] is the helper of the enclosing call. *)
Definition passwordVerifierResponse (authenticationHelper : AuthenticationHelper)
    (r' : Reply) : M unit :=
  match r' with
  | Failed errAuthenticate => invoke (onFailure [AErr errAuthenticate])
  | Returned dataAuthenticate =>
      challengeName <- field dataAuthenticate Data.ChallengeName;;
      if not_nullish challengeName && strict_eq challengeName "SMS_MFA" then
        newSession <- field dataAuthenticate Data.Session;;
        assign (set_Session newSession);;
        invoke (mfaRequired [AVal challengeName])
      else if not_nullish challengeName
              && strict_eq challengeName "CUSTOM_CHALLENGE" then
        newSession <- field dataAuthenticate Data.Session;;
        assign (set_Session newSession);;
        parameters' <- field dataAuthenticate Data.ChallengeParameters;;
        invoke (customChallenge [AParams parameters'])
      else if not_nullish challengeName
              && strict_eq challengeName "DEVICE_SRP_AUTH" then
        getDeviceResponse
      else
        authResult <- field dataAuthenticate Data.AuthenticationResult;;
        newSession <- getCognitoUserSession authResult;;
        assign (set_signInUserSession (Some newSession));;
        cacheTokens;;
        result <- field authResult id;;
        confirmNewDevice authenticationHelper result
  end.

Definition authenticateUser (authDetails : AuthenticationDetails) : M unit :=
  u <- get_this;;
  authenticationHelper <-
    new_AuthenticationHelper (poolName (pool u)) (getParanoia (pool u));;
  let authParameters : gmap string jsval := ∅ in
  let authParameters :=
    if not_nullish (deviceKey u)
    then <["DEVICE_KEY" := deviceKey u]> authParameters else authParameters in
  let authParameters := <["USERNAME" := username u]> authParameters in
  let authParameters :=
    <["SRP_A" := str (getLargeAValue authenticationHelper)]> authParameters in
  let authParameters :=
    if bool_decide (authenticationFlowType u = "CUSTOM_AUTH")
    then <["CHALLENGE_NAME" := str "SRP_A"]> authParameters else authParameters in
  r <- makeUnauthenticatedRequest "initiateAuth"
         [("AuthFlow", PVal (str (authenticationFlowType u)));
          ("ClientId", PVal (str (getClientId (pool u))));
          ("AuthParameters", PObj authParameters);
          ("ClientMetadata", PArr (getValidationData authDetails))];;
  match r with
  | Failed err => invoke (onFailure [AErr err])
  | Returned data =>
      parameters <- field data Data.ChallengeParameters;;
      challengeParameters <- field parameters id;;
      assign (set_username (prop challengeParameters "USER_ID_FOR_SRP"));;
      getCachedDeviceKeyAndPassword;;
      self <- get_this;;
      hkdf <-
        getPasswordAuthenticationKey authenticationHelper
          (username self) (getPassword authDetails)
          (prop challengeParameters "SRP_B") (prop challengeParameters "SALT");;
      dateNow <- now_string;;
      signature <-
        signatureString hkdf (poolName (pool self)) (username self)
          (prop challengeParameters "SECRET_BLOCK") dateNow;;
      let challengeResponses : gmap string jsval :=
        <["PASSWORD_CLAIM_SIGNATURE" := str signature]>
          (<["TIMESTAMP" := str dateNow]>
             (<["PASSWORD_CLAIM_SECRET_BLOCK" := prop challengeParameters "SECRET_BLOCK"]>
                (<["USERNAME" := username self]> ∅))) in
      let challengeResponses :=
        if not_nullish (deviceKey self)
        then <["DEVICE_KEY" := deviceKey self]> challengeResponses
        else challengeResponses in
      session <- field data Data.Session;;
      r' <- makeUnauthenticatedRequest "respondToAuthChallenge"
              [("ChallengeName", PVal (str "PASSWORD_VERIFIER"));
               ("ClientId", PVal (str (getClientId (pool self))));
               ("ChallengeResponses", PObj challengeResponses);
               ("Session", PVal session)];;
      passwordVerifierResponse authenticationHelper r'
  end.

(** [data.challengeParameters] (small c) is the property the source
    reads in the custom-challenge branch; the provider's data has no such
    property, so the caller receives [undefined]. *)
Definition sendCustomChallengeAnswer (answerChallenge : jsval) : M unit :=
  u <- get_this;;
  let challengeResponses : gmap string jsval :=
    <["ANSWER" := answerChallenge]> (<["USERNAME" := username u]> ∅) in
  r <- makeUnauthenticatedRequest "respondToAuthChallenge"
         [("ChallengeName", PVal (str "CUSTOM_CHALLENGE"));
          ("ChallengeResponses", PObj challengeResponses);
          ("ClientId", PVal (str (getClientId (pool u))));
          ("Session", PVal (Session u))];;
  match r with
  | Failed err => invoke (onFailure [AErr err])
  | Returned data =>
      challengeName <- field data Data.ChallengeName;;
      if not_nullish challengeName && strict_eq challengeName "CUSTOM_CHALLENGE" then
        newSession <- field data Data.Session;;
        assign (set_Session newSession);;
        invoke (customChallenge [AVal undefined])
      else
        authResult <- field data Data.AuthenticationResult;;
        newSession <- getCognitoUserSession authResult;;
        assign (set_signInUserSession (Some newSession));;
        cacheTokens;;
        self <- get_this;;
        invoke (onSuccess [ASession (signInUserSession self)])
  end.

Definition sendMFACode (confirmationCode : jsval) : M unit :=
  u <- get_this;;
  let challengeResponses : gmap string jsval :=
    <["SMS_MFA_CODE" := confirmationCode]> (<["USERNAME" := username u]> ∅) in
  let challengeResponses :=
    if not_nullish (deviceKey u)
    then <["DEVICE_KEY" := deviceKey u]> challengeResponses
    else challengeResponses in
  r <- makeUnauthenticatedRequest "respondToAuthChallenge"
         [("ChallengeName", PVal (str "SMS_MFA"));
          ("ChallengeResponses", PObj challengeResponses);
          ("ClientId", PVal (str (getClientId (pool u))));
          ("Session", PVal (Session u))];;
  match r with
  | Failed err => invoke (onFailure [AErr err])
  | Returned dataAuthenticate =>
      authResult <- field dataAuthenticate Data.AuthenticationResult;;
      newSession <- getCognitoUserSession authResult;;
      assign (set_signInUserSession (Some newSession));;
      cacheTokens;;
      result <- field authResult id;;
      match Data.NewDeviceMetadata result with
      | Some _ =>
          self <- get_this;;
          authenticationHelper <-
            new_AuthenticationHelper (poolName (pool self)) (getParanoia (pool self));;
          confirmNewDevice authenticationHelper result
      | None =>
          self <- get_this;;
          invoke (onSuccess [ASession (signInUserSession self)])
      end
  end.

(** ** Session retrieval *)

Definition refreshSession (refreshToken : CognitoRefreshToken) : M unit :=
  u <- get_this;;
  storage <- get_storage;;
  let authParameters : gmap string jsval :=
    <["REFRESH_TOKEN" := getToken refreshToken]> ∅ in
  let lastUserKey := lastUserKey u in
  authParameters <-
    (if truthy (getItem storage lastUserKey) then
       assign (set_username (getItem storage lastUserKey));;
       self <- get_this;;
       let deviceKeyKey := userKey self "deviceKey" in
       assign (set_deviceKey (getItem storage deviceKeyKey));;
       self' <- get_this;;
       ret (<["DEVICE_KEY" := deviceKey self']> authParameters)
     else ret authParameters);;
  self <- get_this;;
  r <- makeUnauthenticatedRequest "initiateAuth"
         [("ClientId", PVal (str (getClientId (pool self))));
          ("AuthFlow", PVal (str "REFRESH_TOKEN_AUTH"));
          ("AuthParameters", PObj authParameters)];;
  match r with
  | Failed err => invoke (callback [AErr err; ANull])
  | Returned None => ret tt
  | Returned (Some authResult) =>
      result <- field (Data.AuthenticationResult authResult) id;;
      let result' :=
        match Data.RefreshToken result with
        | Some _ => result
        | None =>
            {| Data.IdToken := Data.IdToken result;
               Data.AccessToken := Data.AccessToken result;
               Data.RefreshToken := Some (getToken refreshToken);
               Data.NewDeviceMetadata := Data.NewDeviceMetadata result |}
        end in
      newSession <- getCognitoUserSession (Some result');;
      assign (set_signInUserSession (Some newSession));;
      cacheTokens;;
      self' <- get_this;;
      invoke (callback [ANull; ASession (signInUserSession self')])
  end.

(** [cachedSession.isValid()] *)
Definition valid_now (s : CognitoUserSession) : M bool :=
  fun w => Done (isValid (nowSeconds (time w)) s) w.

Definition getSession : M unit :=
  u <- get_this;;
  if negb (not_nullish (username u)) then
    invoke (callback [AErr (Error "Username is null. Cannot retrieve a new session");
                      ANull])
  else
    valid <- authenticated;;
    if valid then invoke (callback [ANull; ASession (signInUserSession u)])
    else
      let idTokenKey := userKey u "idToken" in
      let accessTokenKey := userKey u "accessToken" in
      let refreshTokenKey := userKey u "refreshToken" in
      storage <- get_storage;;
      if truthy (getItem storage idTokenKey) then
        let idToken := {| idJwtToken := getItem storage idTokenKey |} in
        let accessToken := {| accessJwtToken := getItem storage accessTokenKey |} in
        let refreshToken := {| token := getItem storage refreshTokenKey |} in
        let cachedSession :=
          {| sessIdToken := idToken; sessAccessToken := accessToken;
             sessRefreshToken := refreshToken |} in
        cachedValid <- valid_now cachedSession;;
        if cachedValid then
          assign (set_signInUserSession (Some cachedSession));;
          self <- get_this;;
          invoke (callback [ANull; ASession (signInUserSession self)])
        else if not_nullish (getToken refreshToken) then
          refreshSession refreshToken
        else
          invoke (callback
                    [AErr (Error "Cannot retrieve a new session. Please authenticate.");
                     ANull])
      else ret tt.

(** ** Operations of an authenticated user *)

(** [changePassword(oldUserPassword, newUserPassword, callback)] *)
Definition changePassword (oldUserPassword : jsval) (newUserPassword : jsval) : M unit :=
  valid <- authenticated;;
  if valid then
    accessToken <- accessTokenOfSession;;
    u <- get_this;;
    r <- makeUnauthenticatedRequest "changePassword"
         [("PreviousPassword", PVal oldUserPassword);
          ("ProposedPassword", PVal newUserPassword);
          ("AccessToken", PVal accessToken)];;
    match r with
    | Failed err => invoke (callback [AErr err; ANull])
    | Returned data => invoke (callback [ANull; AStr "SUCCESS"])
    end
  else invoke (callback [AErr (Error "User is not authenticated"); ANull]).

(** [enableMFA(callback)] *)
Definition enableMFA : M unit :=
  valid <- authenticated;;
  if valid then
    accessToken <- accessTokenOfSession;;
    u <- get_this;;
    r <- makeUnauthenticatedRequest "setUserSettings"
         [("MFAOptions", PArr [<["AttributeName" := str "phone_number"]>
                              (<["DeliveryMedium" := str "SMS"]> ∅)]);
          ("AccessToken", PVal accessToken)];;
    match r with
    | Failed err => invoke (callback [AErr err; ANull])
    | Returned data => invoke (callback [ANull; AStr "SUCCESS"])
    end
  else invoke (callback [AErr (Error "User is not authenticated"); ANull]).

(** [disableMFA(callback)] *)
Definition disableMFA : M unit :=
  valid <- authenticated;;
  if valid then
    accessToken <- accessTokenOfSession;;
    u <- get_this;;
    r <- makeUnauthenticatedRequest "setUserSettings"
         [("MFAOptions", PArr []);
          ("AccessToken", PVal accessToken)];;
    match r with
    | Failed err => invoke (callback [AErr err; ANull])
    | Returned data => invoke (callback [ANull; AStr "SUCCESS"])
    end
  else invoke (callback [AErr (Error "User is not authenticated"); ANull]).

(** [deleteUser(callback)] *)
Definition deleteUser : M unit :=
  valid <- authenticated;;
  if valid then
    accessToken <- accessTokenOfSession;;
    u <- get_this;;
    r <- makeUnauthenticatedRequest "deleteUser"
         [("AccessToken", PVal accessToken)];;
    match r with
    | Failed err => invoke (callback [AErr err; ANull])
    | Returned data => invoke (callback [ANull; AStr "SUCCESS"])
    end
  else invoke (callback [AErr (Error "User is not authenticated"); ANull]).

(** [updateAttributes(attributes, callback)] *)
Definition updateAttributes (attributes : list (gmap string jsval)) : M unit :=
  valid <- authenticated;;
  if valid then
    accessToken <- accessTokenOfSession;;
    u <- get_this;;
    r <- makeUnauthenticatedRequest "updateUserAttributes"
         [("AccessToken", PVal accessToken);
          ("UserAttributes", PArr attributes)];;
    match r with
    | Failed err => invoke (callback [AErr err; ANull])
    | Returned data => invoke (callback [ANull; AStr "SUCCESS"])
    end
  else invoke (callback [AErr (Error "User is not authenticated"); ANull]).

(** [getUserAttributes(callback)].  The loop over [userData.UserAttributes]
    calls [new CognitoUserAttribute(attribute)], a name that
    [CognitoUser.js] neither imports nor defines: the first attribute
    raises a ReferenceError, and only an empty list reaches the
    callback. *)
Definition getUserAttributes : M unit :=
  valid <- authenticated;;
  if valid then
    accessToken <- accessTokenOfSession;;
    r <- makeUnauthenticatedRequest "getUser"
         [("AccessToken", PVal accessToken)];;
    match r with
    | Failed err => invoke (callback [AErr err; ANull])
    | Returned userData =>
        attributes <- field userData Data.UserAttributes;;
        match attributes with
        | [] => invoke (callback [ANull; AAttrs []])
        | _ :: _ => throw
        end
    end
  else invoke (callback [AErr (Error "User is not authenticated"); ANull]).

(** [deleteAttributes(attributeList, callback)] *)
Definition deleteAttributes (attributeNames : list string) : M unit :=
  valid <- authenticated;;
  if valid then
    accessToken <- accessTokenOfSession;;
    u <- get_this;;
    r <- makeUnauthenticatedRequest "deleteUserAttributes"
         [("UserAttributeNames", PStrs attributeNames);
          ("AccessToken", PVal accessToken)];;
    match r with
    | Failed err => invoke (callback [AErr err; ANull])
    | Returned data => invoke (callback [ANull; AStr "SUCCESS"])
    end
  else invoke (callback [AErr (Error "User is not authenticated"); ANull]).

(** [getAttributeVerificationCode(attributeName, callback)] *)
Definition getAttributeVerificationCode (attributeName : jsval) : M unit :=
  valid <- authenticated;;
  if valid then
    accessToken <- accessTokenOfSession;;
    u <- get_this;;
    r <- makeUnauthenticatedRequest "getUserAttributeVerificationCode"
         [("AttributeName", PVal attributeName);
          ("AccessToken", PVal accessToken)];;
    match r with
    | Failed err => invoke (onFailure [AErr err])
    | Returned data => invoke (inputVerificationCode [AData data])
    end
  else invoke (callback [AErr (Error "User is not authenticated"); ANull]).

(** [verifyAttribute(attributeName, confirmationCode, callback)] *)
Definition verifyAttribute (attributeName : jsval) (confirmationCode : jsval) : M unit :=
  valid <- authenticated;;
  if valid then
    accessToken <- accessTokenOfSession;;
    u <- get_this;;
    r <- makeUnauthenticatedRequest "verifyUserAttribute"
         [("AttributeName", PVal attributeName);
          ("Code", PVal confirmationCode);
          ("AccessToken", PVal accessToken)];;
    match r with
    | Failed err => invoke (onFailure [AErr err])
    | Returned data => invoke (onSuccess [AStr "SUCCESS"])
    end
  else invoke (callback [AErr (Error "User is not authenticated"); ANull]).

(** [getDevice(callback)] *)
Definition getDevice : M unit :=
  valid <- authenticated;;
  if valid then
    accessToken <- accessTokenOfSession;;
    u <- get_this;;
    r <- makeUnauthenticatedRequest "getDevice"
         [("AccessToken", PVal accessToken);
          ("DeviceKey", PVal (deviceKey u))];;
    match r with
    | Failed err => invoke (onFailure [AErr err])
    | Returned data => invoke (onSuccess [AData data])
    end
  else invoke (callback [AErr (Error "User is not authenticated"); ANull]).

(** [forgetDevice(callback)]: on success the source assigns [null] to
    [deviceKey], to [deviceGroupkey] (small k) and to [randomPassword]. *)
Definition forgetDevice : M unit :=
  valid <- authenticated;;
  if valid then
    accessToken <- accessTokenOfSession;;
    u <- get_this;;
    r <- makeUnauthenticatedRequest "forgetDevice"
         [("AccessToken", PVal accessToken);
          ("DeviceKey", PVal (deviceKey u))];;
    match r with
    | Failed err => invoke (onFailure [AErr err])
    | Returned data =>
        assign (set_deviceKey null);;
        assign (set_deviceGroupkey null);;
        assign (set_randomPassword null);;
        clearCachedDeviceKeyAndPassword;;
        invoke (onSuccess [AStr "SUCCESS"])
    end
  else invoke (callback [AErr (Error "User is not authenticated"); ANull]).

(** [setDeviceStatusRemembered(callback)] *)
Definition setDeviceStatusRemembered : M unit :=
  valid <- authenticated;;
  if valid then
    accessToken <- accessTokenOfSession;;
    u <- get_this;;
    r <- makeUnauthenticatedRequest "updateDeviceStatus"
         [("AccessToken", PVal accessToken);
          ("DeviceKey", PVal (deviceKey u));
          ("DeviceRememberedStatus", PVal (str "remembered"))];;
    match r with
    | Failed err => invoke (onFailure [AErr err])
    | Returned data => invoke (onSuccess [AStr "SUCCESS"])
    end
  else invoke (callback [AErr (Error "User is not authenticated"); ANull]).

(** [setDeviceStatusNotRemembered(callback)] *)
Definition setDeviceStatusNotRemembered : M unit :=
  valid <- authenticated;;
  if valid then
    accessToken <- accessTokenOfSession;;
    u <- get_this;;
    r <- makeUnauthenticatedRequest "updateDeviceStatus"
         [("AccessToken", PVal accessToken);
          ("DeviceKey", PVal (deviceKey u));
          ("DeviceRememberedStatus", PVal (str "not_remembered"))];;
    match r with
    | Failed err => invoke (onFailure [AErr err])
    | Returned data => invoke (onSuccess [AStr "SUCCESS"])
    end
  else invoke (callback [AErr (Error "User is not authenticated"); ANull]).

(** [listDevices(limit, paginationToken, callback)] *)
Definition listDevices (limit : Z) (paginationToken : jsval) : M unit :=
  valid <- authenticated;;
  if valid then
    accessToken <- accessTokenOfSession;;
    u <- get_this;;
    r <- makeUnauthenticatedRequest "listDevices"
         [("AccessToken", PVal accessToken);
          ("Limit", PNum limit);
          ("PaginationToken", PVal paginationToken)];;
    match r with
    | Failed err => invoke (onFailure [AErr err])
    | Returned data => invoke (onSuccess [AData data])
    end
  else invoke (callback [AErr (Error "User is not authenticated"); ANull]).

(** [globalSignOut(callback)] *)
Definition globalSignOut : M unit :=
  valid <- authenticated;;
  if valid then
    accessToken <- accessTokenOfSession;;
    r <- makeUnauthenticatedRequest "globalSignOut"
         [("AccessToken", PVal accessToken)];;
    match r with
    | Failed err => invoke (onFailure [AErr err])
    | Returned data =>
        clearCachedTokens;;
        invoke (onSuccess [AStr "SUCCESS"])
    end
  else invoke (callback [AErr (Error "User is not authenticated"); ANull]).

(** ** Operations that need no session *)

(** [getSignInUserSession()], [getAuthenticationFlowType()] and
    [setAuthenticationFlowType(authenticationFlowType)] *)
Definition getSignInUserSession : M (option CognitoUserSession) :=
  u <- get_this;;
  ret (signInUserSession u).

Definition getAuthenticationFlowType : M string :=
  u <- get_this;;
  ret (authenticationFlowType u).

Definition setAuthenticationFlowType (flowType : string) : M unit :=
  assign (set_authenticationFlowType flowType).

(** [confirmRegistration(confirmationCode, forceAliasCreation, callback)];
    [forceAliasCreation] is passed on as the caller gave it. *)
Definition confirmRegistration (confirmationCode : jsval) (forceAliasCreation : Param)
  : M unit :=
  u <- get_this;;
  r <- makeUnauthenticatedRequest "confirmSignUp"
         [("ClientId", PVal (str (getClientId (pool u))));
          ("ConfirmationCode", PVal confirmationCode);
          ("Username", PVal (username u));
          ("ForceAliasCreation", forceAliasCreation)];;
  match r with
  | Failed err => invoke (callback [AErr err; ANull])
  | Returned data => invoke (callback [ANull; AStr "SUCCESS"])
  end.

(** [resendConfirmationCode(callback)] *)
Definition resendConfirmationCode : M unit :=
  u <- get_this;;
  r <- makeUnauthenticatedRequest "resendConfirmationCode"
         [("ClientId", PVal (str (getClientId (pool u))));
          ("Username", PVal (username u))];;
  match r with
  | Failed err => invoke (callback [AErr err; ANull])
  | Returned data => invoke (callback [ANull; AStr "SUCCESS"])
  end.

(** [forgotPassword(callback)]; [hasInputVerificationCode] is the test
    [typeof callback.inputVerificationCode === 'function'] on the
    caller's callback. *)
Definition forgotPassword (hasInputVerificationCode : bool) : M unit :=
  u <- get_this;;
  r <- makeUnauthenticatedRequest "forgotPassword"
         [("ClientId", PVal (str (getClientId (pool u))));
          ("Username", PVal (username u))];;
  match r with
  | Failed err => invoke (onFailure [AErr err])
  | Returned data =>
      if hasInputVerificationCode then invoke (inputVerificationCode [AData data])
      else invoke (onSuccess [])
  end.

(** [confirmPassword(confirmationCode, newPassword, callback)] *)
Definition confirmPassword (confirmationCode newPassword : jsval) : M unit :=
  u <- get_this;;
  r <- makeUnauthenticatedRequest "confirmForgotPassword"
         [("ClientId", PVal (str (getClientId (pool u))));
          ("Username", PVal (username u));
          ("ConfirmationCode", PVal confirmationCode);
          ("Password", PVal newPassword)];;
  match r with
  | Failed err => invoke (onFailure [AErr err])
  | Returned data => invoke (onSuccess [])
  end.

End CognitoUser.

(** * Vocabulary of the properties *)

Definition outcome_world {A : Type} (o : Outcome A) : World :=
  match o with
  | Done _ w => w
  | Threw w => w
  | Waiting w => w
  end.

(** The callbacks invoked and the requests sent in a trace, in order. *)
Fixpoint callbacks (l : list Event) : list Callback :=
  match l with
  | [] => []
  | Invoked c :: rest => c :: callbacks rest
  | _ :: rest => callbacks rest
  end.

Fixpoint requests (l : list Event) : list Request :=
  match l with
  | [] => []
  | Sent q :: rest => q :: requests rest
  | _ :: rest => requests rest
  end.

(** The session [getCognitoUserSession] builds from a result. *)
Definition session_of (authResult : Data.AuthenticationResultType) : CognitoUserSession :=
  {| sessIdToken := {| idJwtToken := Data.IdToken authResult |};
     sessAccessToken := {| accessJwtToken := Data.AccessToken authResult |};
     sessRefreshToken :=
       {| token := default undefined (Data.RefreshToken authResult) |} |}.

(** The four writes of [cacheTokens], for user [u] and session [s]. *)
Definition tokenWrites (u : CognitoUser) (s : CognitoUserSession) : list Event :=
  [SetItem (userKey u "idToken") (to_string (idJwtToken (getIdToken s)));
   SetItem (userKey u "accessToken") (to_string (accessJwtToken (getAccessToken s)));
   SetItem (userKey u "refreshToken") (to_string (getToken (getRefreshToken s)));
   SetItem (lastUserKey u) (to_string (username u))].

(** The storage after these writes. *)
Definition withTokens (u : CognitoUser) (s : CognitoUserSession)
    (storage : gmap string string) : gmap string string :=
  <[lastUserKey u := to_string (username u)]>
    (<[userKey u "refreshToken" := to_string (getToken (getRefreshToken s))]>
       (<[userKey u "accessToken" := to_string (accessJwtToken (getAccessToken s))]>
          (<[userKey u "idToken" := to_string (idJwtToken (getIdToken s))]> storage))).

(** The per-user fields the cache functions of the source use. *)
Definition cachedField (f : string) : Prop :=
  f = "idToken" \/ f = "accessToken" \/ f = "refreshToken"
  \/ f = "deviceKey" \/ f = "randomPasswordKey" \/ f = "deviceGroupKey".

Section Vocabulary.

Context {ext : Externals}.

(** The helper [new AuthenticationHelper(name, paranoia)] builds in [w]. *)
Definition helperOf (name : jsval) (w : World) : AuthenticationHelper :=
  {| helperPoolName := name; helperParanoia := getParanoia (pool (this w));
     helperSeed := entropy (draws w); hashDevice := None |}.

(** The PASSWORD_VERIFIER request with challenge responses [m]. *)
Definition passwordVerifierRequest (client : string) (m : gmap string jsval)
    (session : jsval) : Request :=
  {| operation := "respondToAuthChallenge";
     params := [("ChallengeName", PVal (str "PASSWORD_VERIFIER"));
                ("ClientId", PVal (str client));
                ("ChallengeResponses", PObj m);
                ("Session", PVal session)] |}.

(** The user object after [getCachedDeviceKeyAndPassword] on [storage]. *)
Definition withCachedDevice (u : CognitoUser) (storage : gmap string string)
  : CognitoUser :=
  if truthy (getItem storage (userKey u "deviceKey")) then
    set_deviceGroupKey (getItem storage (userKey u "deviceGroupKey"))
      (set_randomPassword (getItem storage (userKey u "randomPasswordKey"))
         (set_deviceKey (getItem storage (userKey u "deviceKey")) u))
  else u.

(** The user object of [authenticateUser] once [initiateAuth] has
    returned the challenge parameters [cp]: the canonical user name, and
    the device secrets the cache holds under it. *)
Definition canonicalUser (w : World) (cp : gmap string string) : CognitoUser :=
  withCachedDevice (set_username (prop cp "USER_ID_FOR_SRP") (this w))
    (localStorage w).

(** The key derivation [authenticateUser] runs in [w] on the challenge
    parameters [cp]: [Some hkdf] when the engine accepts the server's
    values, [None] when it rejects them. *)
Definition passwordKey (w : World) (details : AuthenticationDetails)
    (cp : gmap string string) : option string :=
  derive_shared_key (helperOf (poolName (pool (this w))) w)
    (prop cp "USER_ID_FOR_SRP") (getPassword details)
    (prop cp "SRP_B") (prop cp "SALT").

(** The key derivation [getDeviceResponse] runs on the challenge
    parameters [cp] for the user object [u], when [n] random values have
    been drawn before: the helper is built on the device group key, the
    device key is the user name and the random password the password. *)
Definition deviceKeyDerivation (u : CognitoUser) (n : nat)
    (cp : gmap string string) : option string :=
  derive_shared_key
    {| helperPoolName := deviceGroupKey u; helperParanoia := getParanoia (pool u);
       helperSeed := entropy n; hashDevice := None |}
    (deviceKey u) (randomPassword u) (prop cp "SRP_B") (prop cp "SALT").

(** The signature [authenticateUser] sends in [w] for the challenge
    parameters [cp]: the engine derives the key for the canonical user
    name, and the signer signs the pool name, that user name, the secret
    block and the timestamp with it.  [None] when either rejects. *)
Definition passwordClaim (w : World) (details : AuthenticationDetails)
    (cp : gmap string string) : option string :=
  match passwordKey w details cp with
  | Some hkdf =>
      sign hkdf (poolName (pool (this w))) (prop cp "USER_ID_FOR_SRP")
        (prop cp "SECRET_BLOCK") (getNowString (S (time w)))
  | None => None
  end.

(** The signature [getDeviceResponse] sends for the challenge parameters
    [cp] and the user object [u], when [n] random values have been drawn
    and [t] replies received before: the device group key and the device
    key are signed in place of the pool name and the user name. *)
Definition deviceClaim (u : CognitoUser) (n t : nat) (cp : gmap string string)
  : option string :=
  match deviceKeyDerivation u n cp with
  | Some hkdf =>
      sign hkdf (deviceGroupKey u) (deviceKey u) (prop cp "SECRET_BLOCK")
        (getNowString t)
  | None => None
  end.

(** What an event of an exchange under the canonical user name [c] must
    look like: a challenge response carries [c] as USERNAME, a cache
    write goes to a key made of the client id and [c]. *)
Definition exchange_event (c : jsval) (client : string) (e : Event) : Prop :=
  match e with
  | Sent q =>
      operation q = "respondToAuthChallenge" ->
      exists m, param (params q) "ChallengeResponses" = Some (PObj m)
                /\ m !! "USERNAME" = Some c
  | SetItem k _ => k = lastAuthUserKey client \/ exists f, k = cacheKey client c f
  | _ => True
  end.

(** From [w] to [w']: the identity is [c] and [p] at the end, and the
    events in between are those of an exchange under [c]. *)
Definition exchange_step (c : jsval) (p : CognitoUserPool) (w w' : World) : Prop :=
  username (this w') = c
  /\ pool (this w') = p
  /\ exists l, trace w' = trace w ++ l
              /\ Forall (exchange_event c (getClientId p)) l.

(** A token or secret as it comes back from the storage. *)
Definition stored (v : jsval) : jsval := str (to_string v).

(** The session [getSession] rebuilds from the cache entries of [u]. *)
Definition cachedSession (u : CognitoUser) (storage : gmap string string)
  : CognitoUserSession :=
  {| sessIdToken := {| idJwtToken := getItem storage (userKey u "idToken") |};
     sessAccessToken :=
       {| accessJwtToken := getItem storage (userKey u "accessToken") |};
     sessRefreshToken := {| token := getItem storage (userKey u "refreshToken") |} |}.

(** The same session with each token as the string the cache keeps. *)
Definition storedSession (s : CognitoUserSession) : CognitoUserSession :=
  {| sessIdToken := {| idJwtToken := stored (idJwtToken (getIdToken s)) |};
     sessAccessToken :=
       {| accessJwtToken := stored (accessJwtToken (getAccessToken s)) |};
     sessRefreshToken := {| token := stored (getToken (getRefreshToken s)) |} |}.

(** The REFRESH_TOKEN_AUTH request with parameters [m]. *)
Definition refreshRequest (client : string) (m : gmap string jsval) : Request :=
  {| operation := "initiateAuth";
     params := [("ClientId", PVal (str client));
                ("AuthFlow", PVal (str "REFRESH_TOKEN_AUTH"));
                ("AuthParameters", PObj m)] |}.

(** The four keys [cacheTokens] writes and [clearCachedTokens] removes. *)
Definition tokenKeys (u : CognitoUser) : list string :=
  [userKey u "idToken"; userKey u "accessToken"; userKey u "refreshToken";
   lastUserKey u].

(** A method that reports exactly once: if it runs to its end it has
    invoked one callback, as its last step; if it throws or is left
    waiting it has invoked none. *)
Definition reports_once (w : World) (o : Outcome unit) : Prop :=
  match o with
  | Done _ wf =>
      exists pre c, trace wf = (trace w ++ pre) ++ [Invoked c] /\ callbacks pre = []
  | Threw wf | Waiting wf =>
      exists l, trace wf = trace w ++ l /\ callbacks l = []
  end.

(** A method that has sent one request, carrying the access token of
    session [s], and invoked the callback at most once. *)
Definition sends_access_token (s : CognitoUserSession) (w : World)
    (o : Outcome unit) : Prop :=
  exists q l,
    trace (outcome_world o) = trace w ++ Sent q :: l
    /\ param (params q) "AccessToken"
       = Some (PVal (accessJwtToken (getAccessToken s)))
    /\ requests l = []
    /\ (length (callbacks l) <= 1)%nat.

(** No underscore in a string. *)
Fixpoint no_underscore (s : string) : bool :=
  match s with
  | EmptyString => true
  | String c rest => negb (bool_decide (c = "_"%char)) && no_underscore rest
  end.

(** The replies that lead an attempt of [authenticateUser] in [w] up to
    one of its four requests: none before [initiateAuth]; the SRP
    challenge, for which there is a signature, before PASSWORD_VERIFIER;
    then a DEVICE_SRP_AUTH challenge before the device's first request;
    then the device's SRP challenge, for which there is a signature,
    before DEVICE_PASSWORD_VERIFIER. *)
Inductive challenge_prefix (w : World) (details : AuthenticationDetails)
  : list Reply -> Prop :=
| before_initiateAuth : challenge_prefix w details []
| before_passwordVerifier d1 cp signature :
    Data.ChallengeParameters d1 = Some cp ->
    passwordClaim w details cp = Some signature ->
    challenge_prefix w details [Returned (Some d1)]
| before_deviceSrpAuth d1 cp signature d2 :
    Data.ChallengeParameters d1 = Some cp ->
    passwordClaim w details cp = Some signature ->
    Data.ChallengeName d2 = str "DEVICE_SRP_AUTH" ->
    challenge_prefix w details [Returned (Some d1); Returned (Some d2)]
| before_devicePasswordVerifier d1 cp signature d2 d3 cp3 signature3 :
    Data.ChallengeParameters d1 = Some cp ->
    passwordClaim w details cp = Some signature ->
    Data.ChallengeName d2 = str "DEVICE_SRP_AUTH" ->
    Data.ChallengeParameters d3 = Some cp3 ->
    deviceClaim (canonicalUser w cp) (S (draws w)) (S (S (S (time w)))) cp3
    = Some signature3 ->
    challenge_prefix w details
      [Returned (Some d1); Returned (Some d2); Returned (Some d3)].



(** The session [s] is the session of the user object of [w], and its
    tokens and the user name are in the storage of [w] under the keys of
    that user. *)
Definition session_cached (w : World) (s : CognitoUserSession) : Prop :=
  signInUserSession (this w) = Some s
  /\ localStorage w !! userKey (this w) "idToken"
     = Some (to_string (idJwtToken (getIdToken s)))
  /\ localStorage w !! userKey (this w) "accessToken"
     = Some (to_string (accessJwtToken (getAccessToken s)))
  /\ localStorage w !! userKey (this w) "refreshToken"
     = Some (to_string (getToken (getRefreshToken s)))
  /\ localStorage w !! lastUserKey (this w) = Some (to_string (username (this w))).


(** The [initiateAuth] request of [authenticateUser] with parameters [m]. *)
Definition initiateAuthRequest (u : CognitoUser) (details : AuthenticationDetails)
    (m : gmap string jsval) : Request :=
  {| operation := "initiateAuth";
     params := [("AuthFlow", PVal (str (authenticationFlowType u)));
                ("ClientId", PVal (str (getClientId (pool u))));
                ("AuthParameters", PObj m);
                ("ClientMetadata", PArr (getValidationData details))] |}.

(** The in-memory session is null or not valid. *)
Definition not_authenticated (w : World) : Prop :=
  signInUserSession (this w) = None
  \/ exists s, signInUserSession (this w) = Some s
               /\ isValid (nowSeconds (time w)) s = false.

(** What a refused operation does: one call of the callback with the
    error, and nothing else. *)
Definition refused (w : World) : Outcome unit :=
  Done tt (log (Invoked (callback [AErr (Error "User is not authenticated"); ANull])) w).

End Vocabulary.

(** * A concrete scenario

    The login of the specification: user alice of pool p_abc, client c1,
    against a scripted provider.  The collaborators are toy functions
    that keep their arguments readable; the toy engine rejects the
    server value '0' and a challenge without SRP_B or SALT, and the toy
    signer a challenge without SECRET_BLOCK. *)

Module Scenario.

Definition demo : Externals :=
  {| entropy := fun n => N.of_nat n;
     getNowString := fun _ => "Sun Nov 1 06:40:00 UTC 2026";
     nowSeconds := fun t => 1000 + Z.of_nat t;
     userAgent := "agent";
     getExpiration :=
       fun v => match v with
                | str s => if String.prefix "stale" s then 0 else 9999
                | _ => 0
                end;
     getLargeAValue := fun h => "a1b2";
     derive_shared_key :=
       fun h u p b s =>
         match b, s with
         | str B, str _ =>
             if bool_decide (B = "0") then None
             else Some ("hkdf(" +:+ to_string u +:+ "," +:+ to_string p +:+ ")")
         | _, _ => None
         end;
     sign :=
       fun k n u b d =>
         match b with
         | str _ => Some ("hmac(" +:+ k +:+ "," +:+ to_string n +:+ ","
                            +:+ to_string u +:+ ")")
         | _ => None
         end;
     getSaltDevices := fun h => "c2FsdA==";
     getVerifierDevices := fun h => "dmVyaWZpZXI=";
     getVerifierDevicesBits := fun h => "dmVyaWZpZXI=";
     getRandomPassword := fun h => str "device-password" |}.

Definition pool_abc : CognitoUserPool :=
  {| userPoolId := "p_abc"; clientId := "c1"; poolParanoia := 7 |}.

Definition alice : CognitoUser :=
  {| username := str "alice"; pool := pool_abc; Session := null;
     signInUserSession := None; authenticationFlowType := "USER_SRP_AUTH";
     deviceKey := undefined; randomPassword := undefined;
     deviceGroupKey := undefined; deviceGroupkey := undefined;
     verifierDevices := undefined |}.

Definition details : AuthenticationDetails :=
  {| validationData := []; detailsUsername := str "alice";
     detailsPassword := str "Secret123!" |}.

Definition world (u : CognitoUser) (storage : gmap string string) (rs : list Reply)
  : World :=
  {| this := u; localStorage := storage; replies := rs;
     time := 0; draws := 0; trace := [] |}.

Definition empty_data : Data.ResponseData :=
  {| Data.ChallengeName := undefined; Data.ChallengeParameters := None;
     Data.Session := undefined; Data.AuthenticationResult := None;
     Data.UserConfirmationNecessary := None; Data.UserAttributes := [] |}.

(** The provider's answer to [initiateAuth]. *)
Definition srp_parameters : gmap string string :=
  <["SECRET_BLOCK" := "c2VjcmV0"]>
    (<["SALT" := "5a17"]>
       (<["SRP_B" := "b0b"]>
          (<["USER_ID_FOR_SRP" := "alice"]> ∅))).

Definition password_challenge : Data.ResponseData :=
  {| Data.ChallengeName := str "PASSWORD_VERIFIER";
     Data.ChallengeParameters := Some srp_parameters;
     Data.Session := str "session-1"; Data.AuthenticationResult := None;
     Data.UserConfirmationNecessary := None; Data.UserAttributes := [] |}.

Definition tokens : Data.AuthenticationResultType :=
  {| Data.IdToken := str "id-token"; Data.AccessToken := str "access-token";
     Data.RefreshToken := Some (str "refresh-token");
     Data.NewDeviceMetadata := None |}.

Definition tokens_new_device : Data.AuthenticationResultType :=
  {| Data.IdToken := str "id-token"; Data.AccessToken := str "access-token";
     Data.RefreshToken := Some (str "refresh-token");
     Data.NewDeviceMetadata :=
       Some {| Data.DeviceGroupKey := str "group-1"; Data.DeviceKey := str "device-1" |} |}.

Definition result_of (r : Data.AuthenticationResultType) : Data.ResponseData :=
  {| Data.ChallengeName := undefined; Data.ChallengeParameters := None;
     Data.Session := undefined; Data.AuthenticationResult := Some r;
     Data.UserConfirmationNecessary := None; Data.UserAttributes := [] |}.

Definition challenge_named (name : string) : Data.ResponseData :=
  {| Data.ChallengeName := str name; Data.ChallengeParameters := None;
     Data.Session := str "session-2"; Data.AuthenticationResult := None;
     Data.UserConfirmationNecessary := None; Data.UserAttributes := [] |}.

(** alice once her session is set. *)
Definition alice_signed_in : CognitoUser :=
  set_signInUserSession (Some (session_of tokens)) alice.

(** alice on a remembered device. *)
Definition alice_on_device : CognitoUser :=
  set_deviceGroupKey (str "group-1")
    (set_randomPassword (str "device-password")
       (set_deviceKey (str "device-1") alice_signed_in)).

(** alice after [mfaRequired]: the provider's session token is stored. *)
Definition alice_awaiting_code : CognitoUser :=
  set_Session (str "session-2") alice.

Definition tokens_without_refresh : Data.AuthenticationResultType :=
  {| Data.IdToken := str "id-token-2"; Data.AccessToken := str "access-token-2";
     Data.RefreshToken := None; Data.NewDeviceMetadata := None |}.

Definition confirm_error : JsError := ProviderError "InternalErrorException".

(** The login of the specification: a challenge, then the tokens. *)
Definition login_world : World :=
  world alice ∅
    [Returned (Some password_challenge); Returned (Some (result_of tokens))].


(** A login on a new device whose confirmation the provider refuses. *)
Definition new_device_world : World :=
  world alice ∅
    [Returned (Some password_challenge);
     Returned (Some (result_of tokens_new_device));
     Failed confirm_error].

(** The same after an MFA code. *)
Definition mfa_new_device_world : World :=
  world alice_awaiting_code ∅
    [Returned (Some (result_of tokens_new_device)); Failed confirm_error].

(** The provider answers an MFA code with a further challenge. *)
Definition mfa_challenge_world : World :=
  world alice_awaiting_code ∅
    [Returned (Some (challenge_named "DEVICE_SRP_AUTH"))].

(** The device sub-flow on a remembered device. *)
Definition device_world : World :=
  world alice_on_device ∅
    [Returned (Some password_challenge);
     Returned (Some (result_of tokens_new_device))].

Definition refresh_world : World :=
  world alice ∅ [Returned (Some (result_of tokens_without_refresh))].

Definition old_refresh_token : CognitoRefreshToken :=
  {| token := str "refresh-token" |}.

Definition forget_world : World :=
  world alice_on_device ∅ [Returned None].

(** The provider's answer to [confirmDevice] when it wants the user to
    confirm that the device is to be remembered. *)
Definition confirmation_necessary : Data.ResponseData :=
  {| Data.ChallengeName := undefined; Data.ChallengeParameters := None;
     Data.Session := undefined; Data.AuthenticationResult := None;
     Data.UserConfirmationNecessary := Some true; Data.UserAttributes := [] |}.

(** A login on a new device that the provider confirms. *)
Definition confirmed_device_world : World :=
  world alice ∅
    [Returned (Some password_challenge);
     Returned (Some (result_of tokens_new_device));
     Returned (Some confirmation_necessary)].

(** The cache of a browser that remembers alice's device. *)
Definition remembered_storage : gmap string string :=
  <["CognitoIdentityServiceProvider.c1.alice.deviceKey" := "device-1"]>
    (<["CognitoIdentityServiceProvider.c1.alice.randomPasswordKey" := "device-password"]>
       (<["CognitoIdentityServiceProvider.c1.alice.deviceGroupKey" := "group-1"]> ∅)).

(** A login from that browser with a fresh user object. *)
Definition remembered_login_world : World :=
  world alice remembered_storage
    [Returned (Some password_challenge);
     Returned (Some (challenge_named "DEVICE_SRP_AUTH"))].

(** A cache whose tokens have expired. *)
Definition stale_storage : gmap string string :=
  <["CognitoIdentityServiceProvider.c1.alice.idToken" := "stale-id-token"]>
    (<["CognitoIdentityServiceProvider.c1.alice.accessToken" := "stale-access-token"]>
       (<["CognitoIdentityServiceProvider.c1.alice.refreshToken" := "refresh-token"]> ∅)).

Definition stale_world : World :=
  world alice stale_storage [Returned (Some (result_of tokens))].

(** A cache whose last authenticated user is bob, on a remembered
    device. *)
Definition last_user_storage : gmap string string :=
  <["CognitoIdentityServiceProvider.c1.LastAuthUser" := "bob"]>
    (<["CognitoIdentityServiceProvider.c1.bob.deviceKey" := "device-9"]> ∅).

Definition last_user_world : World :=
  world alice last_user_storage [Returned (Some (result_of tokens))].





(** A challenge the engine rejects: the server value is zero. *)
Definition zero_parameters : gmap string string :=
  <["SRP_B" := "0"]> srp_parameters.

Definition zero_challenge : Data.ResponseData :=
  {| Data.ChallengeName := str "PASSWORD_VERIFIER";
     Data.ChallengeParameters := Some zero_parameters;
     Data.Session := str "session-1"; Data.AuthenticationResult := None;
     Data.UserConfirmationNecessary := None; Data.UserAttributes := [] |}.

Definition zero_challenge_world : World :=
  world alice ∅
    [Returned (Some zero_challenge); Returned (Some (result_of tokens))].


(** The provider refuses the answer to the password challenge. *)
Definition refused_password_world : World :=
  world alice ∅ [Returned (Some password_challenge); Failed confirm_error].

End Scenario.

(** * Tactics *)

Ltac head t :=
  match t with
  | ?f _ => head f
  | _ => t
  end.

(** Runs the monad and the state accessors; maps, strings and the tests
    on JavaScript values are left as they are. *)
Ltac run_monad :=
  cbv [bind ret throw get_this get_storage assign setItem removeItem invoke
       makeUnauthenticatedRequest field now_string new_AuthenticationHelper
       authenticated valid_now log set_this set_localStorage outcome_world
       this localStorage replies time draws trace
       username pool Session signInUserSession authenticationFlowType
       deviceKey randomPassword deviceGroupKey deviceGroupkey verifierDevices
       set_username set_Session set_signInUserSession set_authenticationFlowType
       set_deviceKey set_randomPassword set_deviceGroupKey set_deviceGroupkey
       set_verifierDevices
       userKey lastUserKey getClientId getParanoia getUserPoolId
       getCognitoUserSession accessTokenOfSession session_of
       getIdToken getAccessToken getRefreshToken getToken
       sessIdToken sessAccessToken sessRefreshToken
       idJwtToken accessJwtToken token default id
       not_authenticated refused helperOf passwordVerifierRequest
       refreshRequest initiateAuthRequest
       getPasswordAuthenticationKey signatureString
       passwordKey deviceKeyDerivation] in *.

(** Evaluates the comparisons of two string literals. *)
Ltac decide_literals :=
  repeat match goal with
    | |- context [@bool_decide (?a = ?b) ?d] =>
        let v := eval vm_compute in (@bool_decide (a = b) d) in
        match v with
        | true => change (@bool_decide (a = b) d) with true
        | false => change (@bool_decide (a = b) d) with false
        end
    end.

Ltac run_tests :=
  cbn [not_nullish strict_eq andb negb operation params
       Data.ChallengeName Data.ChallengeParameters Data.Session
       Data.AuthenticationResult Data.UserConfirmationNecessary
       Data.UserAttributes Data.IdToken Data.AccessToken Data.RefreshToken
       Data.NewDeviceMetadata Data.DeviceGroupKey Data.DeviceKey];
  decide_literals;
  cbv beta iota.

Ltac run := run_monad; run_tests.

(** Case analysis on the test of a conditional in the goal. *)
Ltac split_if :=
  match goal with
  | |- context [if ?b then _ else _] => destruct b eqn:?
  end.

(** Runs a method along all its paths: case analysis on every test
    that does not compute. *)
Ltac crunch :=
  repeat (run;
          try match goal with
            | |- context [match ?x with _ => _ end] =>
                lazymatch x with
                | context [match _ with _ => _ end] => fail
                | _ => destruct x eqn:?
                end
            end).

(** Closes the side condition of one event of an exchange. *)
Ltac exchange_event_ok :=
  lazymatch goal with
  | |- exchange_event _ _ (Sent _) =>
      cbn [exchange_event operation params]; intros Hop;
      first [ discriminate Hop
            | eexists; split;
              [ cbn [param]; decide_literals; cbv beta iota; reflexivity
              | repeat split_if;
                rewrite ?lookup_insert_ne by discriminate;
                apply lookup_insert_eq ] ]
  | |- exchange_event _ _ (SetItem _ _) =>
      cbn [exchange_event];
      first [ left; reflexivity | right; eexists; reflexivity ]
  | |- exchange_event _ _ _ => exact I
  end.

(** Closes [trace w' = trace w ++ ?l] and the condition on [?l]. *)
Ltac exchange_trace :=
  rewrite <- ?app_assoc; first [reflexivity | symmetry; apply app_nil_r].

Ltac exchange_events :=
  cbn [app];
  repeat match goal with
    | |- Forall _ (_ :: _) => constructor; [exchange_event_ok|]
    | |- Forall _ [] => constructor
    end.

(** Closes [exchange_step] at the end of a path. *)
Ltac exchange_done :=
  split; [reflexivity|]; split; [reflexivity|];
  eexists; split; [exchange_trace|exchange_events].

(** As [crunch], up to the calls of the sub-flows. *)
Ltac crunch_upto :=
  repeat (run;
          try match goal with
            | |- context [match ?x with _ => _ end] =>
                lazymatch x with
                | context [match _ with _ => _ end] => fail
                | context [getDeviceResponse] => fail
                | context [confirmNewDevice] => fail
                | context [passwordVerifierResponse] => fail
                | _ => destruct x eqn:?
                end
            end).

(** Closes [reports_once] at the end of a path. *)
Ltac once_done :=
  lazymatch goal with
  | |- reports_once _ (Done _ _) =>
      cbn [reports_once]; run; eexists _, _;
      split; [apply (f_equal2 app); [exchange_trace|reflexivity]|reflexivity]
  | |- reports_once _ _ =>
      cbn [reports_once]; run; eexists; split; [exchange_trace|reflexivity]
  end.

(** Splits a conjunction into its conjuncts, without touching them. *)
Ltac conjuncts := repeat match goal with |- _ /\ _ => split end.

(** Closes [k1 <> k2] for two cache keys of one user. *)
Create HintDb keys.

Ltac key_neq := solve [auto with keys].

(** A string literal is never [u +:+ suffix] when the suffix does not end it. *)
Ltac peel H u :=
  repeat (destruct u as [|? u]; cbn in H; [discriminate H|];
          injection H as _ H);
  try (destruct u; discriminate H).

(** * Properties *)

(** ** Cache keys are pairwise distinct *)

Lemma append_inj_l (p a b : string) : p +:+ a = p +:+ b -> a = b.
Proof.
  induction p as [|c p IH]; cbn; [auto|].
  intros H. injection H as H. auto.
Qed.

Lemma cacheKey_inj (client : string) (user : jsval) (f g : string) :
  cacheKey client user f = cacheKey client user g -> f = g.
Proof.
  unfold cacheKey. intros H.
  do 5 apply append_inj_l in H. exact H.
Qed.

Lemma cacheKey_neq (client : string) (user : jsval) (f g : string) :
  f <> g -> cacheKey client user f <> cacheKey client user g.
Proof. intros Hfg E. apply Hfg. eapply cacheKey_inj, E. Qed.

Lemma cacheKey_last (client : string) (user : jsval) (f : string) :
  cachedField f -> cacheKey client user f <> lastAuthUserKey client.
Proof.
  unfold cacheKey, lastAuthUserKey, cachedField. intros Hf H.
  do 2 apply append_inj_l in H.
  cbn in H. injection H as H.
  generalize dependent (to_string user). intros n H.
  destruct Hf as [-> | [-> | [-> | [-> | [-> | ->]]]]]; peel H n.
Qed.

Lemma lastAuthUserKey_not_cacheKey (client : string) (user : jsval) (f : string) :
  cachedField f -> lastAuthUserKey client <> cacheKey client user f.
Proof. intros Hf E. symmetry in E. revert E. now apply cacheKey_last. Qed.

#[local] Hint Resolve cacheKey_neq cacheKey_last lastAuthUserKey_not_cacheKey : keys.
#[local] Hint Extern 1 (cachedField _) => unfold cachedField; tauto : keys.
#[local] Hint Extern 2 (_ <> _) => discriminate : keys.

Lemma callbacks_app (l l' : list Event) :
  callbacks (l ++ l') = callbacks l ++ callbacks l'.
Proof.
  induction l as [|[| | |] l IH]; cbn; [reflexivity|auto..].
  now rewrite IH.
Qed.

Lemma requests_app (l l' : list Event) :
  requests (l ++ l') = requests l ++ requests l'.
Proof.
  induction l as [|[| | |] l IH]; cbn; [reflexivity| |auto..].
  now rewrite IH.
Qed.

Section Properties.

Context {ext : Externals}.

Lemma bind_Done {A B : Type} (m : M A) (k : A -> M B) (w : World) a w' :
  m w = Done a w' -> bind m k w = k a w'.
Proof. intros E. unfold bind. now rewrite E. Qed.

(** Reading the cached device secrets changes nothing but the three
    device fields of the user object. *)
Lemma getCachedDeviceKeyAndPassword_done (w : World) :
  exists u',
    getCachedDeviceKeyAndPassword w
    = Done tt {| this := u'; localStorage := localStorage w;
                 replies := replies w; time := time w; draws := draws w;
                 trace := trace w |}
    /\ u' = withCachedDevice (this w) (localStorage w)
    /\ username u' = username (this w)
    /\ pool u' = pool (this w)
    /\ Session u' = Session (this w)
    /\ signInUserSession u' = signInUserSession (this w)
    /\ authenticationFlowType u' = authenticationFlowType (this w).
Proof.
  unfold getCachedDeviceKeyAndPassword, withCachedDevice. run.
  destruct (truthy _); run; eexists; (split; [reflexivity|]); auto 7.
Qed.

Lemma cacheTokens_done (w : World) (s : CognitoUserSession) :
  signInUserSession (this w) = Some s ->
  cacheTokens w =
  Done tt {| this := this w;
             localStorage := withTokens (this w) s (localStorage w);
             replies := replies w; time := time w; draws := draws w;
             trace := trace w ++ tokenWrites (this w) s |}.
Proof.
  intros H. unfold cacheTokens. run. rewrite H. run.
  unfold withTokens, tokenWrites. rewrite <- !app_assoc. reflexivity.
Qed.

(** The lookups of a storage in which the tokens were just written. *)
Lemma withTokens_lookup (u : CognitoUser) (s : CognitoUserSession)
    (storage : gmap string string) :
  withTokens u s storage !! userKey u "idToken"
    = Some (to_string (idJwtToken (getIdToken s)))
  /\ withTokens u s storage !! userKey u "accessToken"
    = Some (to_string (accessJwtToken (getAccessToken s)))
  /\ withTokens u s storage !! userKey u "refreshToken"
    = Some (to_string (getToken (getRefreshToken s)))
  /\ withTokens u s storage !! lastUserKey u = Some (to_string (username u)).
Proof.
  unfold withTokens, userKey, lastUserKey. conjuncts.
  - rewrite !lookup_insert_ne by key_neq. apply lookup_insert_eq.
  - rewrite !lookup_insert_ne by key_neq. apply lookup_insert_eq.
  - rewrite !lookup_insert_ne by key_neq. apply lookup_insert_eq.
  - apply lookup_insert_eq.
Qed.

(** ** Authentication up to the PASSWORD_VERIFIER reply *)

(** When [initiateAuth] succeeds and there is a signature for its
    challenge, [authenticateUser] takes the user name from
    [USER_ID_FOR_SRP], sends the PASSWORD_VERIFIER request with that
    signature and hands the reply to [passwordVerifierResponse]. *)
Lemma authenticateUser_to_verifier (w : World) (details : AuthenticationDetails)
    (d1 : Data.ResponseData) (cp : gmap string string) (signature : string)
    (r2 : Reply) (rest : list Reply) :
  replies w = Returned (Some d1) :: r2 :: rest ->
  Data.ChallengeParameters d1 = Some cp ->
  passwordClaim w details cp = Some signature ->
  let helper := helperOf (poolName (pool (this w))) w in
  let canonical := prop cp "USER_ID_FOR_SRP" in
  let dateNow := getNowString (S (time w)) in
  exists u2 q1 m,
    authenticateUser details w
    = passwordVerifierResponse helper r2
        {| this := u2; localStorage := localStorage w; replies := rest;
           time := S (S (time w)); draws := S (draws w);
           trace := trace w
                    ++ [Sent q1;
                        Sent (passwordVerifierRequest (getClientId (pool (this w)))
                                m (Data.Session d1))] |}
    /\ operation q1 = "initiateAuth"
    /\ username u2 = canonical
    /\ pool u2 = pool (this w)
    /\ Session u2 = Session (this w)
    /\ signInUserSession u2 = signInUserSession (this w)
    /\ m !! "USERNAME" = Some canonical
    /\ m !! "TIMESTAMP" = Some (str dateNow)
    /\ m !! "PASSWORD_CLAIM_SIGNATURE"
       = Some (str signature)
    /\ u2 = canonicalUser w cp.
Proof.
  intros Hr Hcp Hk helper canonical dateNow. subst helper canonical dateNow.
  unfold passwordClaim in Hk.
  destruct (passwordKey w details cp) as [hkdf|] eqn:Hkey; [|discriminate Hk].
  unfold authenticateUser, canonicalUser.
  repeat progress (run; rewrite ?Hr, ?Hcp).
  match goal with
  | |- context [getCachedDeviceKeyAndPassword ?w0] =>
      destruct (getCachedDeviceKeyAndPassword_done w0)
        as (u2 & E & Hu2 & Hu & Hp & Hs & Hss & Hf)
  end.
  rewrite E. run. rewrite Hu, Hp, Hkey. run. rewrite Hk. run.
  eexists u2, _, _. split; [rewrite <- app_assoc; reflexivity|].
  conjuncts; try reflexivity; try assumption.
  all: split_if;
    rewrite ?lookup_insert_ne by discriminate; apply lookup_insert_eq.
Qed.



(** *** The canonical user name *)

Lemma exchange_step_app (c : jsval) (p : CognitoUserPool) (w w1 w2 : World)
    (l1 : list Event) :
  trace w1 = trace w ++ l1 ->
  Forall (exchange_event c (getClientId p)) l1 ->
  exchange_step c p w1 w2 ->
  exchange_step c p w w2.
Proof.
  intros Ht Hl (Hu & Hp & l2 & Ht2 & Hl2).
  split; [exact Hu|]. split; [exact Hp|].
  exists (l1 ++ l2). split.
  - rewrite Ht2, Ht. symmetry. apply app_assoc.
  - apply Forall_app. split; assumption.
Qed.

Lemma confirmNewDevice_exchange (h : AuthenticationHelper)
    (result : Data.AuthenticationResultType) (w : World) :
  exchange_step (username (this w)) (pool (this w)) w
    (outcome_world (confirmNewDevice h result w)).
Proof.
  unfold confirmNewDevice, cacheDeviceKeyAndPassword, exchange_step. crunch.
  all: exchange_done.
Qed.

Lemma getDeviceResponse_exchange (w : World) :
  exchange_step (username (this w)) (pool (this w)) w
    (outcome_world (getDeviceResponse w)).
Proof.
  unfold getDeviceResponse, cacheTokens, exchange_step. crunch.
  all: exchange_done.
Qed.

Lemma passwordVerifierResponse_exchange (h : AuthenticationHelper) (r : Reply)
    (w : World) :
  exchange_step (username (this w)) (pool (this w)) w
    (outcome_world (passwordVerifierResponse h r w)).
Proof.
  unfold passwordVerifierResponse, cacheTokens. crunch_upto.
  all: try (unfold exchange_step; exchange_done).
  all: match goal with
       | |- context [getDeviceResponse ?W] =>
           eapply (exchange_step_app _ _ _ W);
           [ | | apply (getDeviceResponse_exchange W)]
       | |- context [confirmNewDevice ?h' ?r' ?W] =>
           eapply (exchange_step_app _ _ _ W);
           [ | | apply (confirmNewDevice_exchange h' r' W)]
       end.
  all: try exchange_trace.
  all: exchange_events.
Qed.



(** With no challenge name in the PASSWORD_VERIFIER reply, the session
    is set and the tokens are cached under the canonical user name, and
    the new-device step runs from there. *)
Lemma authenticateUser_tokens (w : World) (details : AuthenticationDetails)
    (d1 d2 : Data.ResponseData) (cp : gmap string string) (signature : string)
    (result : Data.AuthenticationResultType) (rest : list Reply) :
  replies w = Returned (Some d1) :: Returned (Some d2) :: rest ->
  Data.ChallengeParameters d1 = Some cp ->
  passwordClaim w details cp = Some signature ->
  not_nullish (Data.ChallengeName d2) = false ->
  Data.AuthenticationResult d2 = Some result ->
  let s := session_of result in
  exists u2 q1 q2,
    authenticateUser details w
    = confirmNewDevice (helperOf (poolName (pool (this w))) w) result
        {| this := set_signInUserSession (Some s) u2;
           localStorage := withTokens u2 s (localStorage w);
           replies := rest; time := S (S (time w)); draws := S (draws w);
           trace := trace w ++ [Sent q1; Sent q2] ++ tokenWrites u2 s |}
    /\ username u2 = prop cp "USER_ID_FOR_SRP"
    /\ pool u2 = pool (this w)
    /\ operation q1 = "initiateAuth"
    /\ operation q2 = "respondToAuthChallenge".
Proof.
  intros Hr Hcp Hk Hn Hres s. subst s.
  destruct (authenticateUser_to_verifier w details d1 cp signature _ rest Hr Hcp Hk)
    as (u2 & q1 & m & E & Hq1 & Hu & Hp & _).
  rewrite E. clear E.
  unfold passwordVerifierResponse. run. rewrite Hn, Hres. run.
  erewrite cacheTokens_done by reflexivity. run.
  eexists u2, q1, _. rewrite <- app_assoc.
  split; [reflexivity|]. conjuncts; try assumption; reflexivity.
Qed.

(** The new-device step when [confirmDevice] fails. *)
Lemma confirmNewDevice_failed (h : AuthenticationHelper)
    (result : Data.AuthenticationResultType) (nd : Data.NewDeviceMetadataType)
    (w : World) (s : CognitoUserSession) (e : JsError) (rest : list Reply) :
  Data.NewDeviceMetadata result = Some nd ->
  signInUserSession (this w) = Some s ->
  replies w = Failed e :: rest ->
  exists u' q,
    confirmNewDevice h result w
    = Done tt {| this := u'; localStorage := localStorage w; replies := rest;
                 time := S (time w); draws := draws w;
                 trace := trace w ++ [Sent q; Invoked (onFailure [AErr e])] |}
    /\ operation q = "confirmDevice"
    /\ signInUserSession u' = Some s
    /\ username u' = username (this w)
    /\ pool u' = pool (this w).
Proof.
  intros Hnd Hs Hr. unfold confirmNewDevice. rewrite Hnd.
  repeat progress (run; rewrite ?Hs, ?Hr).
  eexists _, _. rewrite <- app_assoc.
  split; [reflexivity|]. conjuncts; reflexivity.
Qed.

(** What [sendMFACode] does with a reply that carries a result. *)
Lemma sendMFACode_tokens (w : World) (code : jsval) (d : Data.ResponseData)
    (result : Data.AuthenticationResultType) (rest : list Reply) :
  replies w = Returned (Some d) :: rest ->
  Data.AuthenticationResult d = Some result ->
  let s := session_of result in
  let w' :=
    {| this := set_signInUserSession (Some s) (this w);
       localStorage := withTokens (this w) s (localStorage w);
       replies := rest; time := S (time w); draws := draws w;
       trace := trace w ++ [Sent {| operation := "respondToAuthChallenge";
                                    params :=
                                      [("ChallengeName", PVal (str "SMS_MFA"));
                                       ("ChallengeResponses",
                                        PObj (if not_nullish (deviceKey (this w))
                                              then <["DEVICE_KEY" := deviceKey (this w)]>
                                                     (<["SMS_MFA_CODE" := code]>
                                                        (<["USERNAME" := username (this w)]> ∅))
                                              else <["SMS_MFA_CODE" := code]>
                                                     (<["USERNAME" := username (this w)]> ∅)));
                                       ("ClientId", PVal (str (getClientId (pool (this w)))));
                                       ("Session", PVal (Session (this w)))] |}]
                ++ tokenWrites (this w) s |} in
  sendMFACode code w
  = match Data.NewDeviceMetadata result with
    | Some _ =>
        confirmNewDevice
          {| helperPoolName := poolName (pool (this w));
             helperParanoia := getParanoia (pool (this w));
             helperSeed := entropy (draws w); hashDevice := None |}
          result
          {| this := this w'; localStorage := localStorage w';
             replies := rest; time := time w'; draws := S (draws w);
             trace := trace w' |}
    | None => Done tt (log (Invoked (onSuccess [ASession (Some s)])) w')
    end.
Proof.
  intros Hr Hres s w'. subst s w'.
  unfold sendMFACode.
  repeat progress (run; rewrite ?Hr, ?Hres).
  erewrite cacheTokens_done by reflexivity.
  destruct (Data.NewDeviceMetadata result); run;
    rewrite <- ?app_assoc; reflexivity.
Qed.

(** ** Where the tokens are cached *)

(** The plain login in detail: the tokens the provider returned are the
    ones under the three token keys, and the canonical user name is
    under LastAuthUser. *)
Theorem login_caches_tokens_under_fixed_prefix (w : World)
    (details : AuthenticationDetails) (d1 d2 : Data.ResponseData)
    (cp : gmap string string) (signature : string)
    (result : Data.AuthenticationResultType) (rest : list Reply) :
  replies w = Returned (Some d1) :: Returned (Some d2) :: rest ->
  Data.ChallengeParameters d1 = Some cp ->
  passwordClaim w details cp = Some signature ->
  not_nullish (Data.ChallengeName d2) = false ->
  Data.AuthenticationResult d2 = Some result ->
  Data.NewDeviceMetadata result = None ->
  let client := getClientId (pool (this w)) in
  let user := to_string (prop cp "USER_ID_FOR_SRP") in
  exists wf l,
    authenticateUser details w = Done tt wf
    /\ trace wf = trace w ++ l
    /\ callbacks l = [onSuccess [ASession (Some (session_of result))]]
    /\ localStorage wf
         !! ("CognitoIdentityServiceProvider." +:+ client +:+ "." +:+ user
               +:+ ".idToken")
       = Some (to_string (Data.IdToken result))
    /\ localStorage wf
         !! ("CognitoIdentityServiceProvider." +:+ client +:+ "." +:+ user
               +:+ ".accessToken")
       = Some (to_string (Data.AccessToken result))
    /\ localStorage wf
         !! ("CognitoIdentityServiceProvider." +:+ client +:+ "." +:+ user
               +:+ ".refreshToken")
       = Some (to_string (default undefined (Data.RefreshToken result)))
    /\ localStorage wf
         !! ("CognitoIdentityServiceProvider." +:+ client +:+ ".LastAuthUser")
       = Some user
    /\ (forall k v, In (SetItem k v) l ->
        exists suffix,
          k = "CognitoIdentityServiceProvider." +:+ client +:+ suffix).
Proof.
  intros Hr Hcp Hk Hn Hres Hnd client user. subst client user.
  destruct (authenticateUser_tokens w details d1 d2 cp signature result _
              Hr Hcp Hk Hn Hres)
    as (u2 & q1 & q2 & E & Hu & Hp & _).
  rewrite E. clear E. unfold confirmNewDevice. rewrite Hnd.
  pose proof (withTokens_lookup u2 (session_of result) (localStorage w)) as Hl.
  unfold userKey, lastUserKey in Hl. rewrite Hu, Hp in Hl.
  destruct Hl as (Hid & Hacc & Href & Hlast).
  eexists _, _. split; [reflexivity|]. unfold tokenWrites. run.
  rewrite <- !app_assoc. split; [reflexivity|]. split; [reflexivity|].
  split; [exact Hid|]. split; [exact Hacc|]. split; [exact Href|].
  split; [exact Hlast|].
  rewrite Hu, Hp. intros k v Hin. cbn in Hin.
  destruct Hin as [H|[H|[H|[H|[H|[H|[H|[]]]]]]]]; try discriminate H;
    injection H as <- _; eexists; reflexivity.
Qed.

(** *** Every path that reports success *)
















(** ** A failing [confirmDevice] *)

(** C2, as the code has it: when the primary authentication has
    succeeded (session set, tokens cached) and the [confirmDevice] call
    that follows returns an error, the caller is told through
    [onFailure], with that error, and no other callback is invoked.  The
    session stays set and its tokens stay in the cache: at the end the
    storage is the initial one with the four token entries, and nothing
    of the device is written.  This holds for [authenticateUser] and for
    [sendMFACode]. *)
Theorem confirmDevice_error_is_reported_as_failure
    (w : World) (result : Data.AuthenticationResultType)
    (nd : Data.NewDeviceMetadataType) (e : JsError) (rest : list Reply) :
  Data.NewDeviceMetadata result = Some nd ->
  let s := session_of result in
  (forall details d1 d2 cp signature,
      replies w = Returned (Some d1) :: Returned (Some d2) :: Failed e :: rest ->
      Data.ChallengeParameters d1 = Some cp ->
      passwordClaim w details cp = Some signature ->
      not_nullish (Data.ChallengeName d2) = false ->
      Data.AuthenticationResult d2 = Some result ->
      let u := set_username (prop cp "USER_ID_FOR_SRP") (this w) in
      exists wf q1 q2 q3,
        authenticateUser details w = Done tt wf
        /\ trace wf
           = trace w ++ [Sent q1; Sent q2] ++ tokenWrites u s
               ++ [Sent q3; Invoked (onFailure [AErr e])]
        /\ operation q3 = "confirmDevice"
        /\ localStorage wf = withTokens u s (localStorage w)
        /\ session_cached wf s)
  /\ (forall code d,
      replies w = Returned (Some d) :: Failed e :: rest ->
      Data.AuthenticationResult d = Some result ->
      exists wf q1 q3,
        sendMFACode code w = Done tt wf
        /\ trace wf
           = trace w ++ [Sent q1] ++ tokenWrites (this w) s
               ++ [Sent q3; Invoked (onFailure [AErr e])]
        /\ operation q3 = "confirmDevice"
        /\ localStorage wf = withTokens (this w) s (localStorage w)
        /\ session_cached wf s).
Proof.
  intros Hnd s. subst s. split.
  - intros details d1 d2 cp signature Hr Hcp Hk Hn Hres u. subst u.
    destruct (authenticateUser_tokens w details d1 d2 cp signature result _
                Hr Hcp Hk Hn Hres)
      as (u2 & q1 & q2 & E & Hu & Hp & _).
    rewrite E. clear E.
    edestruct (confirmNewDevice_failed
                 (helperOf (poolName (pool (this w))) w) result nd)
      as (u' & q & E & Hq & Hs' & Hu' & Hp'); [exact Hnd| | |rewrite E; clear E].
    + reflexivity.
    + reflexivity.
    + pose proof (withTokens_lookup u2 (session_of result) (localStorage w))
        as (Hid & Hacc & Href & Hlast).
      unfold tokenWrites, withTokens, session_cached, userKey, lastUserKey in *.
      run. rewrite Hu, Hp in *.
      eexists _, q1, q2, q. split; [reflexivity|]. run. rewrite Hu', Hp'.
      rewrite <- !app_assoc. conjuncts; first [reflexivity | assumption].
  - intros code d Hr Hres.
    rewrite (sendMFACode_tokens w code d result _ Hr Hres), Hnd.
    edestruct (confirmNewDevice_failed)
      as (u' & q & E & Hq & Hs' & Hu' & Hp'); [exact Hnd| | |rewrite E; clear E].
    + reflexivity.
    + reflexivity.
    + pose proof (withTokens_lookup (this w) (session_of result) (localStorage w))
        as (Hid & Hacc & Href & Hlast).
      unfold tokenWrites, withTokens, session_cached, userKey, lastUserKey in *.
      run.
      eexists _, _, q. split; [reflexivity|]. run. rewrite Hu', Hp'.
      rewrite <- !app_assoc. conjuncts; first [reflexivity | assumption].
Qed.

(** ** The reply to an MFA code *)

(** C5, as the code has it: [sendMFACode] never looks at the challenge
    name of the reply.  A reply without [AuthenticationResult] (as one
    that carries a further challenge) makes it throw, after its one
    request and without any callback; a reply with a result and no new
    device is reported as success whatever its challenge name. *)
Theorem sendMFACode_treats_reply_as_final (w : World) (code : jsval)
    (d : Data.ResponseData) (rest : list Reply) :
  replies w = Returned (Some d) :: rest ->
  (Data.AuthenticationResult d = None ->
   exists w' q,
     sendMFACode code w = Threw w'
     /\ requests (trace w') = requests (trace w) ++ [q]
     /\ param (params q) "ChallengeName" = Some (PVal (str "SMS_MFA"))
     /\ callbacks (trace w') = callbacks (trace w))
  /\ (forall result,
        Data.AuthenticationResult d = Some result ->
        Data.NewDeviceMetadata result = None ->
        exists wf l,
          sendMFACode code w = Done tt wf
          /\ trace wf = trace w ++ l
          /\ callbacks l = [onSuccess [ASession (Some (session_of result))]]).
Proof.
  intros Hr. split.
  - intros Hnone. unfold sendMFACode.
    repeat progress (run; rewrite ?Hr, ?Hnone).
    eexists _, _. split; [reflexivity|]. run.
    rewrite requests_app, callbacks_app. cbn.
    split; [reflexivity|]. split; [reflexivity|]. apply app_nil_r.
  - intros result Hres Hnd.
    rewrite (sendMFACode_tokens w code d result _ Hr Hres), Hnd.
    eexists _, _. split; [reflexivity|]. run.
    rewrite <- !app_assoc. split; reflexivity.
Qed.

(** ** The device sub-flow *)

(** C6: in the device sub-flow the shared key is derived from the stored
    [deviceKey] as user name and the stored [randomPassword] as password,
    by a helper built on the stored [deviceGroupKey]; when the engine
    accepts the challenge and returns the key [hkdf], the signature made
    with it over the device group key and the device key is sent under
    the challenge name DEVICE_PASSWORD_VERIFIER; on
    success the session is built and set, its tokens are cached and
    success is reported at once: the two requests of the sub-flow are the
    only ones, whether or not the result carries [NewDeviceMetadata]. *)
Theorem getDeviceResponse_uses_device_secrets (w : World)
    (d1 d2 : Data.ResponseData) (cp : gmap string string)
    (hkdf signature : string)
    (result : Data.AuthenticationResultType) (rest : list Reply) :
  replies w = Returned (Some d1) :: Returned (Some d2) :: rest ->
  Data.ChallengeParameters d1 = Some cp ->
  Data.AuthenticationResult d2 = Some result ->
  derive_shared_key (helperOf (deviceGroupKey (this w)) w)
    (deviceKey (this w)) (randomPassword (this w))
    (prop cp "SRP_B") (prop cp "SALT") = Some hkdf ->
  let dateNow := getNowString (S (time w)) in
  sign hkdf (deviceGroupKey (this w)) (deviceKey (this w))
    (prop cp "SECRET_BLOCK") dateNow = Some signature ->
  let s := session_of result in
  exists q1 m wf,
    getDeviceResponse w = Done tt wf
    /\ trace wf
       = trace w
         ++ [Sent q1;
             Sent {| operation := "respondToAuthChallenge";
                     params :=
                       [("ChallengeName", PVal (str "DEVICE_PASSWORD_VERIFIER"));
                        ("ClientId", PVal (str (getClientId (pool (this w)))));
                        ("ChallengeResponses", PObj m);
                        ("Session", PVal (Data.Session d1))] |}]
         ++ tokenWrites (this w) s
         ++ [Invoked (onSuccess [ASession (Some s)])]
    /\ operation q1 = "respondToAuthChallenge"
    /\ param (params q1) "ChallengeName" = Some (PVal (str "DEVICE_SRP_AUTH"))
    /\ m !! "PASSWORD_CLAIM_SIGNATURE" = Some (str signature)
    /\ m !! "TIMESTAMP" = Some (str dateNow)
    /\ m !! "DEVICE_KEY" = Some (deviceKey (this w))
    /\ signInUserSession (this wf) = Some s
    /\ localStorage wf = withTokens (this w) s (localStorage w).
Proof.
  intros Hr Hcp Hres Hk dateNow Hsig s.
  subst dateNow s.
  unfold getDeviceResponse.
  repeat progress (run; rewrite ?Hr, ?Hcp, ?Hres, ?Hk, ?Hsig).
  erewrite cacheTokens_done by reflexivity. run.
  eexists _, _, _. split; [reflexivity|]. conjuncts.
  all: try (rewrite <- !app_assoc; reflexivity).
  all: try reflexivity.
  all: rewrite ?lookup_insert_ne by discriminate; apply lookup_insert_eq.
Qed.

(** ** Operations of an authenticated user refuse to run without a session *)

Lemma not_authenticated_false (w : World) :
  not_authenticated w -> authenticated w = Done false w.
Proof.
  unfold authenticated. intros [-> | (s & -> & ->)]; reflexivity.
Qed.

(** C9: every protected operation, called while the in-memory session
    is null or not valid, invokes the callback with the error
    'User is not authenticated' and leaves everything else as it was: no
    request is sent to the provider, the storage and the user object are
    unchanged. *)
Theorem protected_operations_need_session (w : World) :
  not_authenticated w ->
  (forall old new, changePassword old new w = refused w)
  /\ enableMFA w = refused w
  /\ disableMFA w = refused w
  /\ deleteUser w = refused w
  /\ (forall attributes, updateAttributes attributes w = refused w)
  /\ getUserAttributes w = refused w
  /\ (forall names, deleteAttributes names w = refused w)
  /\ (forall name, getAttributeVerificationCode name w = refused w)
  /\ (forall name code, verifyAttribute name code w = refused w)
  /\ getDevice w = refused w
  /\ forgetDevice w = refused w
  /\ setDeviceStatusRemembered w = refused w
  /\ setDeviceStatusNotRemembered w = refused w
  /\ (forall limit page, listDevices limit page w = refused w)
  /\ globalSignOut w = refused w.
Proof.
  intros H. apply not_authenticated_false in H.
  conjuncts; intros;
    match goal with
    | |- ?lhs = _ =>
        let hd := head lhs in unfold hd
    end;
    rewrite (bind_Done _ _ _ _ _ H); reflexivity.
Qed.

(** ** Session retrieval *)

(** C4: with a username, no valid in-memory session and no ID token in
    the cache, [getSession] ends without invoking the callback at all:
    the world it leaves is the one it started from, so neither an error
    nor a session is ever delivered. *)
Theorem getSession_without_cached_idToken (w : World) :
  not_nullish (username (this w)) = true ->
  not_authenticated w ->
  truthy (getItem (localStorage w) (userKey (this w) "idToken")) = false ->
  getSession w = Done tt w.
Proof.
  intros Hu Ha Hc. unfold getSession. run. rewrite Hu. run.
  destruct Ha as [E | (s & E & V)]; rewrite E, ?V; run;
    unfold userKey in Hc; run_monad; rewrite Hc; reflexivity.
Qed.

(** C7: when the REFRESH_TOKEN_AUTH call of [refreshSession] succeeds,
    the new session carries the provider's refresh token if the result has
    one and the refresh token that was passed in otherwise; this session
    becomes the in-memory session and its tokens are written to the
    cache before the callback receives it. *)
Theorem refreshSession_retains_refresh_token (w : World)
    (refreshToken : CognitoRefreshToken) (d : Data.ResponseData)
    (result : Data.AuthenticationResultType) (rest : list Reply) :
  replies w = Returned (Some d) :: rest ->
  Data.AuthenticationResult d = Some result ->
  let kept :=
    match Data.RefreshToken result with
    | Some provided => provided
    | None => getToken refreshToken
    end in
  let s :=
    {| sessIdToken := {| idJwtToken := Data.IdToken result |};
       sessAccessToken := {| accessJwtToken := Data.AccessToken result |};
       sessRefreshToken := {| token := kept |} |} in
  exists q wf,
    refreshSession refreshToken w = Done tt wf
    /\ operation q = "initiateAuth"
    /\ param (params q) "AuthFlow" = Some (PVal (str "REFRESH_TOKEN_AUTH"))
    /\ signInUserSession (this wf) = Some s
    /\ getToken (getRefreshToken s) = kept
    /\ localStorage wf = withTokens (this wf) s (localStorage w)
    /\ localStorage wf !! userKey (this wf) "refreshToken" = Some (to_string kept)
    /\ trace wf
       = trace w ++ Sent q :: tokenWrites (this wf) s
                ++ [Invoked (callback [ANull; ASession (Some s)])].
Proof.
  intros Hr Hd kept s.
  unfold refreshSession. run.
  destruct (truthy _);
    repeat progress (run; rewrite ?Hr, ?Hd);
    (destruct (Data.RefreshToken result) as [provided|] eqn:Ht;
     run; erewrite cacheTokens_done by reflexivity; run;
     eexists _, _; (split; [reflexivity|]);
     subst s kept; rewrite ?Ht; conjuncts).
  all: try (rewrite <- !app_assoc; reflexivity).
  all: try (match goal with
            | |- withTokens ?u ?s' _ !! _ = _ => apply (withTokens_lookup u s')
            end).
  all: reflexivity.
Qed.

(** ** Forgetting a device *)

(** C10: a successful [forgetDevice] sets the in-memory [deviceKey] and
    [randomPassword] to null and removes the three device entries from
    the storage, but the in-memory [deviceGroupKey] keeps its value: the
    property the code nulls is [deviceGroupkey]. *)
Theorem forgetDevice_keeps_deviceGroupKey (w : World) (s : CognitoUserSession)
    (data : option Data.ResponseData) (rest : list Reply) :
  signInUserSession (this w) = Some s ->
  isValid (nowSeconds (time w)) s = true ->
  replies w = Returned data :: rest ->
  exists q wf,
    forgetDevice w = Done tt wf
    /\ deviceKey (this wf) = null
    /\ randomPassword (this wf) = null
    /\ deviceGroupkey (this wf) = null
    /\ deviceGroupKey (this wf) = deviceGroupKey (this w)
    /\ localStorage wf
       = delete (userKey (this w) "deviceGroupKey")
           (delete (userKey (this w) "randomPasswordKey")
              (delete (userKey (this w) "deviceKey") (localStorage w)))
    /\ localStorage wf !! userKey (this w) "deviceKey" = None
    /\ localStorage wf !! userKey (this w) "randomPasswordKey" = None
    /\ localStorage wf !! userKey (this w) "deviceGroupKey" = None
    /\ operation q = "forgetDevice"
    /\ trace wf
       = trace w ++ [Sent q;
                     RemoveItem (userKey (this w) "deviceKey");
                     RemoveItem (userKey (this w) "randomPasswordKey");
                     RemoveItem (userKey (this w) "deviceGroupKey");
                     Invoked (onSuccess [AStr "SUCCESS"])].
Proof.
  intros Hs Hv Hr.
  unfold forgetDevice, clearCachedDeviceKeyAndPassword.
  repeat progress (run; rewrite ?Hs, ?Hv, ?Hr).
  eexists _, _. split; [reflexivity|]. run. conjuncts.
  all: try (rewrite <- !app_assoc; reflexivity).
  all: try (rewrite ?lookup_delete_ne by key_neq; apply lookup_delete_eq).
  all: reflexivity.
Qed.

End Properties.

(** * Further properties of the code *)

Lemma getItem_insert_eq (storage : gmap string string) (k v : string) :
  getItem (<[k := v]> storage) k = str v.
Proof. unfold getItem. now rewrite lookup_insert_eq. Qed.

Lemma getItem_insert_ne (storage : gmap string string) (k k' v : string) :
  k <> k' -> getItem (<[k := v]> storage) k' = getItem storage k'.
Proof. intros H. unfold getItem. now rewrite lookup_insert_ne. Qed.

Lemma truthy_str (v : string) : v <> "" -> truthy (str v) = true.
Proof. intros H. cbn. now rewrite bool_decide_eq_false_2. Qed.

Section MoreProperties.

Context {ext : Externals}.

(** ** The device secrets in the cache *)

(** What [cacheDeviceKeyAndPassword] writes, [getCachedDeviceKeyAndPassword]
    reads back into any user object of the same name and client: each of
    the three fields comes back as the string it was stored as (so a
    null or undefined field comes back as the string 'null' or
    'undefined'). *)
Theorem device_secrets_round_trip (w : World) (u' : CognitoUser) :
  to_string (deviceKey (this w)) <> "" ->
  username u' = username (this w) ->
  pool u' = pool (this w) ->
  exists w1 w2,
    cacheDeviceKeyAndPassword w = Done tt w1
    /\ this w1 = this w
    /\ getCachedDeviceKeyAndPassword (set_this u' w1) = Done tt w2
    /\ deviceKey (this w2) = str (to_string (deviceKey (this w)))
    /\ randomPassword (this w2) = str (to_string (randomPassword (this w)))
    /\ deviceGroupKey (this w2) = str (to_string (deviceGroupKey (this w)))
    /\ localStorage w2 = localStorage w1.
Proof.
  intros Hk Hu Hp.
  unfold cacheDeviceKeyAndPassword. run.
  eexists _, _. split; [reflexivity|]. split; [reflexivity|].
  unfold getCachedDeviceKeyAndPassword. run. rewrite Hu, Hp.
  rewrite !(getItem_insert_ne _ _ (cacheKey _ _ "deviceKey")) by key_neq.
  rewrite !(getItem_insert_ne _ _ (cacheKey _ _ "randomPasswordKey")) by key_neq.
  rewrite !getItem_insert_eq, truthy_str by exact Hk.
  conjuncts; reflexivity.
Qed.

(** Without a non-empty [deviceKey] entry for the user,
    [getCachedDeviceKeyAndPassword] changes nothing: the device fields
    keep their values even if the other two entries exist. *)
Theorem getCachedDeviceKeyAndPassword_without_deviceKey (w : World) :
  truthy (getItem (localStorage w) (userKey (this w) "deviceKey")) = false ->
  getCachedDeviceKeyAndPassword w = Done tt w.
Proof.
  intros H. unfold getCachedDeviceKeyAndPassword. run. rewrite H. reflexivity.
Qed.

(** With a non-empty [deviceKey] entry, the three fields are whatever
    the three entries hold. *)
Lemma getCachedDeviceKeyAndPassword_loaded (w : World) (k : string) :
  getItem (localStorage w) (userKey (this w) "deviceKey") = str k ->
  k <> "" ->
  getCachedDeviceKeyAndPassword w
  = Done tt
      (set_this
         (set_deviceGroupKey
            (getItem (localStorage w) (userKey (this w) "deviceGroupKey"))
            (set_randomPassword
               (getItem (localStorage w) (userKey (this w) "randomPasswordKey"))
               (set_deviceKey (str k) (this w)))) w).
Proof.
  intros Hk Hne. unfold getCachedDeviceKeyAndPassword. run.
  rewrite Hk, truthy_str by exact Hne. reflexivity.
Qed.

(** ** Logging in on a new and on a remembered device *)

(** A login (there is a signature for the SRP challenge) whose result
    carries [NewDeviceMetadata] and whose [confirmDevice] call succeeds:
    the request carries the new device
    key, the access token just received and the salt and verifier the
    helper generated; the device key, the generated random password and
    the device group key are then kept in memory and written to the
    cache under the canonical user name; success is reported last, with
    [true] as second argument exactly when the provider answered
    UserConfirmationNecessary = true. *)
Theorem login_on_new_device_stores_secrets (w : World)
    (details : AuthenticationDetails) (d1 d2 dataConfirm : Data.ResponseData)
    (cp : gmap string string) (signature : string)
    (result : Data.AuthenticationResultType)
    (nd : Data.NewDeviceMetadataType) (rest : list Reply) :
  replies w = Returned (Some d1) :: Returned (Some d2)
                :: Returned (Some dataConfirm) :: rest ->
  Data.ChallengeParameters d1 = Some cp ->
  passwordClaim w details cp = Some signature ->
  not_nullish (Data.ChallengeName d2) = false ->
  Data.AuthenticationResult d2 = Some result ->
  Data.NewDeviceMetadata result = Some nd ->
  let helper :=
    generateHashDevice (helperOf (poolName (pool (this w))) w)
      (Data.DeviceGroupKey nd) (Data.DeviceKey nd) in
  let client := getClientId (pool (this w)) in
  let user := prop cp "USER_ID_FOR_SRP" in
  let s := session_of result in
  exists wf q1 q2 cfg,
    authenticateUser details w = Done tt wf
    /\ deviceKey (this wf) = Data.DeviceKey nd
    /\ deviceGroupKey (this wf) = Data.DeviceGroupKey nd
    /\ randomPassword (this wf) = getRandomPassword helper
    /\ localStorage wf !! cacheKey client user "deviceKey"
       = Some (to_string (Data.DeviceKey nd))
    /\ localStorage wf !! cacheKey client user "randomPasswordKey"
       = Some (to_string (getRandomPassword helper))
    /\ localStorage wf !! cacheKey client user "deviceGroupKey"
       = Some (to_string (Data.DeviceGroupKey nd))
    /\ localStorage wf !! cacheKey client user "accessToken"
       = Some (to_string (Data.AccessToken result))
    /\ cfg !! "Salt" = Some (str (getSaltDevices helper))
    /\ cfg !! "PasswordVerifier" = Some (str (getVerifierDevices helper))
    /\ trace wf
       = trace w
         ++ Sent q1 :: Sent q2 :: tokenWrites (set_username user (this w)) s
         ++ [Sent {| operation := "confirmDevice";
                     params :=
                       [("DeviceKey", PVal (Data.DeviceKey nd));
                        ("AccessToken", PVal (Data.AccessToken result));
                        ("DeviceSecretVerifierConfig", PObj cfg);
                        ("DeviceName", PVal (str userAgent))] |};
             SetItem (cacheKey client user "deviceKey")
               (to_string (Data.DeviceKey nd));
             SetItem (cacheKey client user "randomPasswordKey")
               (to_string (getRandomPassword helper));
             SetItem (cacheKey client user "deviceGroupKey")
               (to_string (Data.DeviceGroupKey nd));
             Invoked (onSuccess
                        (ASession (Some s)
                           :: if bool_decide
                                   (Data.UserConfirmationNecessary dataConfirm
                                    = Some true)
                              then [ABool true] else []))].
Proof.
  intros Hr Hcp Hk Hn Hres Hnd helper client user s.
  subst helper client user s.
  destruct (authenticateUser_tokens w details d1 d2 cp signature result _
              Hr Hcp Hk Hn Hres)
    as (u2 & q1 & q2 & E & Hu & Hp & _).
  rewrite E. clear E.
  pose proof (withTokens_lookup u2 (session_of result) (localStorage w))
    as (_ & Hacc & _).
  unfold confirmNewDevice, cacheDeviceKeyAndPassword. rewrite Hnd.
  unfold userKey in Hacc. run. rewrite Hu, Hp in *.
  unfold tokenWrites. run. rewrite ?Hu, ?Hp.
  split_if; (eexists _, q1, q2, _; split; [reflexivity|]);
    run; rewrite <- !app_assoc; cbn [app]; conjuncts.
  all: lazymatch goal with
       | |- trace _ = _ => reflexivity
       | |- _ ++ _ = _ => reflexivity
       | |- _ => idtac
       end.
  all: lazymatch goal with
       | |- _ !! _ = _ =>
           first [ rewrite ?lookup_insert_ne by discriminate;
                   apply lookup_insert_eq
                 | rewrite ?lookup_insert_ne by key_neq;
                   first [apply lookup_insert_eq | exact Hacc] ]
       | |- _ => reflexivity
       end.
Qed.

(** A login on a remembered device: when the cache holds a non-empty
    device key for the canonical user name, [authenticateUser] loads the
    device key, the random password and the device group key from the
    cache before it derives the key and answers the password challenge,
    sends that device key with its PASSWORD_VERIFIER response (when
    there is a signature for the challenge), and, when the provider asks
    for DEVICE_SRP_AUTH, enters the device sub-flow with the cached
    secrets. *)
Theorem login_on_remembered_device_uses_cache (w : World)
    (details : AuthenticationDetails) (d1 d2 : Data.ResponseData)
    (cp : gmap string string) (signature k : string) (rest : list Reply) :
  replies w = Returned (Some d1) :: Returned (Some d2) :: rest ->
  Data.ChallengeParameters d1 = Some cp ->
  passwordClaim w details cp = Some signature ->
  Data.ChallengeName d2 = str "DEVICE_SRP_AUTH" ->
  let client := getClientId (pool (this w)) in
  let user := prop cp "USER_ID_FOR_SRP" in
  getItem (localStorage w) (cacheKey client user "deviceKey") = str k ->
  k <> "" ->
  exists w2 q1 m,
    authenticateUser details w = getDeviceResponse w2
    /\ username (this w2) = user
    /\ deviceKey (this w2) = str k
    /\ randomPassword (this w2)
       = getItem (localStorage w) (cacheKey client user "randomPasswordKey")
    /\ deviceGroupKey (this w2)
       = getItem (localStorage w) (cacheKey client user "deviceGroupKey")
    /\ localStorage w2 = localStorage w
    /\ replies w2 = rest
    /\ trace w2
       = trace w ++ [Sent q1;
                     Sent (passwordVerifierRequest client m (Data.Session d1))]
    /\ m !! "DEVICE_KEY" = Some (str k).
Proof.
  intros Hr Hcp Hclaim Hn client user Hk Hne. subst client user.
  unfold passwordClaim in Hclaim.
  destruct (passwordKey w details cp) as [hkdf|] eqn:Hkey; [|discriminate Hclaim].
  unfold authenticateUser.
  repeat progress (run; rewrite ?Hr, ?Hcp).
  erewrite (getCachedDeviceKeyAndPassword_loaded _ k) by (run; assumption).
  unfold passwordVerifierResponse.
  repeat progress (run; rewrite ?Hn, ?Hkey, ?Hclaim).
  eexists _, _, _. split; [reflexivity|]. run.
  conjuncts; try reflexivity.
  - rewrite <- app_assoc. reflexivity.
  - apply lookup_insert_eq.
Qed.

(** ** Resuming a session from the cache *)

(** What [cacheTokens] writes, [getSession] on a user object of the same
    name and client without a session of its own reads back: if the
    cached tokens are still valid they become the session and are
    handed to the callback, with no request to the provider. *)
Theorem cached_session_is_resumed (w : World) (s : CognitoUserSession)
    (u' : CognitoUser) :
  signInUserSession (this w) = Some s ->
  to_string (idJwtToken (getIdToken s)) <> "" ->
  username u' = username (this w) ->
  pool u' = pool (this w) ->
  not_nullish (username u') = true ->
  signInUserSession u' = None ->
  isValid (nowSeconds (time w)) (storedSession s) = true ->
  exists w1,
    cacheTokens w = Done tt w1
    /\ replies w1 = replies w
    /\ getSession (set_this u' w1)
       = Done tt (log (Invoked (callback [ANull; ASession (Some (storedSession s))]))
                    (set_this (set_signInUserSession (Some (storedSession s)) u') w1)).
Proof.
  intros Hs Hid Hu Hp Hn Hnone Hv.
  rewrite (cacheTokens_done w s Hs).
  eexists. split; [reflexivity|]. split; [reflexivity|].
  unfold getSession, withTokens, storedSession, stored in *. run.
  repeat progress (run; rewrite ?Hn, ?Hnone, ?Hu, ?Hp).
  rewrite !(getItem_insert_ne _ _ (cacheKey _ _ "idToken")) by key_neq.
  rewrite !(getItem_insert_ne _ _ (cacheKey _ _ "accessToken")) by key_neq.
  rewrite !(getItem_insert_ne _ _ (cacheKey _ _ "refreshToken")) by key_neq.
  rewrite !getItem_insert_eq, truthy_str by exact Hid.
  rewrite Hv. run. rewrite ?Hu, ?Hp. reflexivity.
Qed.

(** With an ID token in the cache, cached tokens that are no longer
    valid and a cached refresh token, [getSession] is [refreshSession]
    on that refresh token: nothing is reported before the provider
    answers. *)
Theorem getSession_refreshes_expired_session (w : World) (i r : string) :
  not_nullish (username (this w)) = true ->
  not_authenticated w ->
  getItem (localStorage w) (userKey (this w) "idToken") = str i ->
  i <> "" ->
  getItem (localStorage w) (userKey (this w) "refreshToken") = str r ->
  isValid (nowSeconds (time w)) (cachedSession (this w) (localStorage w)) = false ->
  getSession w = refreshSession {| token := str r |} w.
Proof.
  intros Hn Ha Hi Hne Hr Hv.
  unfold getSession, cachedSession in *. run. rewrite Hn. run.
  destruct Ha as [E | (s & E & V)]; rewrite E, ?V; run;
    rewrite Hi, Hr in *; rewrite truthy_str by exact Hne;
    rewrite Hv; reflexivity.
Qed.

(** [refreshSession] takes the user name from the LastAuthUser entry when
    there is one, and the device key from that user's cache entry (null
    if there is none): the request carries both the refresh token and
    that device key, and the new tokens are cached under the last
    user's name, whatever the user name of the object was. *)
Theorem refreshSession_adopts_last_user (w : World) (rt : CognitoRefreshToken)
    (b : string) (d : Data.ResponseData) (result : Data.AuthenticationResultType)
    (rest : list Reply) :
  getItem (localStorage w) (lastUserKey (this w)) = str b ->
  b <> "" ->
  replies w = Returned (Some d) :: rest ->
  Data.AuthenticationResult d = Some result ->
  let client := getClientId (pool (this w)) in
  let cachedKey := getItem (localStorage w) (cacheKey client (str b) "deviceKey") in
  exists m wf l,
    refreshSession rt w = Done tt wf
    /\ username (this wf) = str b
    /\ deviceKey (this wf) = cachedKey
    /\ trace wf = trace w ++ Sent (refreshRequest client m) :: l
    /\ m !! "REFRESH_TOKEN" = Some (getToken rt)
    /\ m !! "DEVICE_KEY" = Some cachedKey
    /\ localStorage wf !! cacheKey client (str b) "idToken"
       = Some (to_string (Data.IdToken result))
    /\ localStorage wf !! cacheKey client (str b) "accessToken"
       = Some (to_string (Data.AccessToken result))
    /\ localStorage wf !! lastAuthUserKey client = Some b.
Proof.
  intros Hb Hne Hr Hres client cachedKey. subst client cachedKey.
  unfold refreshSession. run. unfold lastUserKey in Hb. run.
  rewrite Hb, truthy_str by exact Hne.
  repeat progress (run; rewrite ?Hr, ?Hres).
  erewrite cacheTokens_done by reflexivity. run.
  match goal with
  | |- context [withTokens ?u ?s ?st] =>
      pose proof (withTokens_lookup u s st) as (Hid & Hacc & _ & Hlast)
  end.
  unfold userKey, lastUserKey in *. run.
  eexists _, _, _. split; [reflexivity|]. run. conjuncts.
  all: try (rewrite <- !app_assoc; reflexivity).
  all: try reflexivity.
  all: try (rewrite ?lookup_insert_ne by discriminate; apply lookup_insert_eq).
  all: destruct (Data.RefreshToken result);
    first [exact Hid | exact Hacc | exact Hlast].
Qed.

(** When the provider refuses the refresh, the callback receives the
    error and nothing is written: the cache and the in-memory session
    are as before. *)
Theorem refreshSession_error (w : World) (rt : CognitoRefreshToken)
    (e : JsError) (rest : list Reply) :
  replies w = Failed e :: rest ->
  exists q wf,
    refreshSession rt w = Done tt wf
    /\ trace wf = trace w ++ [Sent q; Invoked (callback [AErr e; ANull])]
    /\ operation q = "initiateAuth"
    /\ localStorage wf = localStorage w
    /\ signInUserSession (this wf) = signInUserSession (this w)
    /\ replies wf = rest.
Proof.
  intros Hr. unfold refreshSession. run.
  destruct (truthy _); repeat progress (run; rewrite ?Hr);
    eexists _, _; (split; [reflexivity|]); run;
    rewrite <- !app_assoc; conjuncts; reflexivity.
Qed.

(** When the provider answers the refresh with neither an error nor
    data, [refreshSession] ends without invoking the callback. *)
Theorem refreshSession_null_data (w : World) (rt : CognitoRefreshToken)
    (rest : list Reply) :
  replies w = Returned None :: rest ->
  exists q wf,
    refreshSession rt w = Done tt wf
    /\ trace wf = trace w ++ [Sent q]
    /\ localStorage wf = localStorage w
    /\ signInUserSession (this wf) = signInUserSession (this w).
Proof.
  intros Hr. unfold refreshSession. run.
  destruct (truthy _); repeat progress (run; rewrite ?Hr);
    eexists _, _; (split; [reflexivity|]); run; conjuncts; reflexivity.
Qed.

(** ** Signing out *)

(** [signOut] forgets the in-memory session and removes the four token
    entries of the user; every other entry of the storage (device
    secrets, other users) and the other fields of the object are left
    alone, and the provider is not called. *)
Theorem signOut_clears_tokens_only (w : World) :
  exists wf,
    signOut w = Done tt wf
    /\ this wf = set_signInUserSession None (this w)
    /\ not_authenticated wf
    /\ Forall (fun k => localStorage wf !! k = None) (tokenKeys (this w))
    /\ (forall k, ~ In k (tokenKeys (this w)) ->
        localStorage wf !! k = localStorage w !! k)
    /\ requests (trace wf) = requests (trace w)
    /\ replies wf = replies w.
Proof.
  unfold signOut, clearCachedTokens, tokenKeys. run.
  eexists. split; [reflexivity|]. run. conjuncts; try reflexivity.
  - left. reflexivity.
  - repeat constructor;
      rewrite ?lookup_delete_ne by key_neq; apply lookup_delete_eq.
  - intros k Hk. cbn in Hk.
    rewrite !lookup_delete_ne; [reflexivity|intros <-; apply Hk; auto 6..].
  - rewrite !requests_app. cbn. now rewrite !app_nil_r.
Qed.

(** A successful [globalSignOut] removes the four token entries but
    leaves the object as it was: the in-memory session is still set, so
    the object keeps passing the local session check. *)
Theorem globalSignOut_keeps_session_in_memory (w : World) (s : CognitoUserSession)
    (data : option Data.ResponseData) (rest : list Reply) :
  signInUserSession (this w) = Some s ->
  isValid (nowSeconds (time w)) s = true ->
  replies w = Returned data :: rest ->
  exists q wf,
    globalSignOut w = Done tt wf
    /\ this wf = this w
    /\ Forall (fun k => localStorage wf !! k = None) (tokenKeys (this w))
    /\ param (params q) "AccessToken"
       = Some (PVal (accessJwtToken (getAccessToken s)))
    /\ trace wf
       = trace w ++ Sent q :: map RemoveItem (tokenKeys (this w))
                ++ [Invoked (onSuccess [AStr "SUCCESS"])].
Proof.
  intros Hs Hv Hr.
  unfold globalSignOut, clearCachedTokens, tokenKeys.
  repeat progress (run; rewrite ?Hs, ?Hv, ?Hr).
  eexists {| operation := _; params := _ |}, _. split; [reflexivity|]. run.
  split; [reflexivity|]. split.
  - repeat constructor;
      rewrite ?lookup_delete_ne by key_neq; apply lookup_delete_eq.
  - split; [|rewrite <- !app_assoc; reflexivity].
    cbn. decide_literals. reflexivity.
Qed.

(** After [signOut], [getSession] finds neither a session in memory nor
    an ID token in the cache: it ends without invoking its callback and
    without calling the provider. *)
Theorem getSession_after_signOut (w : World) :
  not_nullish (username (this w)) = true ->
  exists w1,
    signOut w = Done tt w1
    /\ getSession w1 = Done tt w1.
Proof.
  intros Hn. unfold signOut, clearCachedTokens. run.
  eexists. split; [reflexivity|].
  unfold getSession, getItem. run. rewrite Hn. run.
  rewrite !lookup_delete_ne by key_neq. rewrite lookup_delete_eq. reflexivity.
Qed.

(** Once [clearCachedDeviceKeyAndPassword] has run,
    [getCachedDeviceKeyAndPassword] loads nothing: the object keeps the
    device fields it has in memory. *)
Theorem cleared_device_secrets_are_not_reloaded (w : World) :
  exists w1,
    clearCachedDeviceKeyAndPassword w = Done tt w1
    /\ this w1 = this w
    /\ getCachedDeviceKeyAndPassword w1 = Done tt w1.
Proof.
  unfold clearCachedDeviceKeyAndPassword. run.
  eexists. split; [reflexivity|]. split; [reflexivity|].
  unfold getCachedDeviceKeyAndPassword, getItem. run.
  rewrite !lookup_delete_ne by key_neq. rewrite lookup_delete_eq. reflexivity.
Qed.

(** ** Answering a custom challenge *)


(** ** Operations that need no session *)

(** [confirmRegistration], [resendConfirmationCode], [forgotPassword] and
    [confirmPassword] run whatever the session is: each sends one request
    with the client id and the user name and no access token, invokes
    the callback once, and changes neither the object nor the storage. *)
Theorem account_operations_need_no_session (w : World) (r : Reply)
    (rest : list Reply) :
  replies w = r :: rest ->
  let unchanged (o : Outcome unit) :=
    exists q c,
      o = Done tt {| this := this w; localStorage := localStorage w;
                     replies := rest; time := S (time w); draws := draws w;
                     trace := trace w ++ [Sent q; Invoked c] |}
      /\ param (params q) "ClientId" = Some (PVal (str (getClientId (pool (this w)))))
      /\ param (params q) "Username" = Some (PVal (username (this w)))
      /\ param (params q) "AccessToken" = None in
  (forall code force, unchanged (confirmRegistration code force w))
  /\ unchanged (resendConfirmationCode w)
  /\ (forall has, unchanged (forgotPassword has w))
  /\ (forall code password, unchanged (confirmPassword code password w)).
Proof.
  intros Hr unchanged. subst unchanged. cbv beta.
  unfold confirmRegistration, resendConfirmationCode, forgotPassword,
    confirmPassword.
  conjuncts; intros; repeat progress (run; rewrite ?Hr);
    destruct r as [e|data]; try destruct has;
    eexists {| operation := _; params := _ |}, _;
    (split; [rewrite <- app_assoc; reflexivity|]);
    cbn; decide_literals; conjuncts; reflexivity.
Qed.

(** ** The first request *)

(** Whatever happens next, [authenticateUser] starts with one
    [initiateAuth] request: it carries the user name the object has at
    that moment (the alias, not yet the canonical name), the public
    value of a helper built on the pool name, the device key only if the
    object already holds one in memory (a key that is only in the cache
    is not sent), and CHALLENGE_NAME = 'SRP_A' exactly when the flow type
    is CUSTOM_AUTH. *)
Theorem authenticateUser_first_request (w : World) (details : AuthenticationDetails) :
  exists m l,
    trace (outcome_world (authenticateUser details w))
    = trace w ++ Sent (initiateAuthRequest (this w) details m) :: l
    /\ m !! "USERNAME" = Some (username (this w))
    /\ m !! "SRP_A"
       = Some (str (getLargeAValue (helperOf (poolName (pool (this w))) w)))
    /\ m !! "DEVICE_KEY"
       = (if not_nullish (deviceKey (this w)) then Some (deviceKey (this w))
          else None)
    /\ m !! "CHALLENGE_NAME"
       = (if bool_decide (authenticationFlowType (this w) = "CUSTOM_AUTH")
          then Some (str "SRP_A") else None).
Proof.
  unfold authenticateUser, getCachedDeviceKeyAndPassword. crunch_upto.
  all: try match goal with
         | |- context [passwordVerifierResponse ?h ?r ?W] =>
             destruct (passwordVerifierResponse_exchange h r W)
               as (_ & _ & l' & Hl' & _);
             run; rewrite Hl'
         end.
  all: eexists _, _; (split; [rewrite <- ?app_assoc; reflexivity|]).
  all: conjuncts;
    rewrite ?lookup_insert_ne by discriminate;
    first [apply lookup_insert_eq | apply lookup_empty].
Qed.

(** ** Provider errors *)

(** An error reply to any of the four requests of an attempt
    ([initiateAuth], PASSWORD_VERIFIER, DEVICE_SRP_AUTH,
    DEVICE_PASSWORD_VERIFIER; a request after [initiateAuth] is sent
    when there is a signature for it) ends the attempt: [onFailure] receives
    that error and is the only callback, no further request is sent, and
    neither the cache nor the in-memory session has changed. *)
Theorem provider_error_ends_the_attempt (w : World)
    (details : AuthenticationDetails) (pre : list Reply) (e : JsError)
    (rest : list Reply) :
  challenge_prefix w details pre ->
  replies w = pre ++ Failed e :: rest ->
  exists wf l,
    authenticateUser details w = Done tt wf
    /\ trace wf = trace w ++ l
    /\ callbacks l = [onFailure [AErr e]]
    /\ length (requests l) = S (length pre)
    /\ localStorage wf = localStorage w
    /\ signInUserSession (this wf) = signInUserSession (this w)
    /\ replies wf = rest.
Proof.
  intros Hpre Hr.
  destruct Hpre as [|d1 cp sig Hcp Hk|d1 cp sig d2 Hcp Hk Hn
                    |d1 cp sig d2 d3 cp3 sig3 Hcp Hk Hn Hcp3 Hk3];
    cbn [app] in Hr.
  - unfold authenticateUser. repeat progress (run; rewrite ?Hr).
    eexists _, _. split; [reflexivity|]. run. rewrite <- !app_assoc.
    conjuncts; reflexivity.
  - destruct (authenticateUser_to_verifier w details d1 cp sig _ rest Hr Hcp Hk)
      as (u2 & q1 & m & E & _ & _ & _ & _ & Hss & _).
    rewrite E. unfold passwordVerifierResponse. run.
    eexists _, _. split; [reflexivity|]. run. rewrite <- !app_assoc.
    conjuncts; try reflexivity. exact Hss.
  - destruct (authenticateUser_to_verifier w details d1 cp sig _ _ Hr Hcp Hk)
      as (u2 & q1 & m & E & _ & _ & _ & _ & Hss & _).
    rewrite E. unfold passwordVerifierResponse, getDeviceResponse.
    repeat progress (run; rewrite ?Hn).
    eexists _, _. split; [reflexivity|]. run. rewrite <- !app_assoc.
    conjuncts; try reflexivity. exact Hss.
  - destruct (authenticateUser_to_verifier w details d1 cp sig _ _ Hr Hcp Hk)
      as (u2 & q1 & m & E & _ & _ & _ & _ & Hss & _ & _ & _ & Hu2).
    rewrite E. unfold passwordVerifierResponse, getDeviceResponse.
    rewrite <- Hu2 in Hk3. unfold deviceClaim in Hk3.
    destruct (deviceKeyDerivation u2 (S (draws w)) cp3) as [hkdf3|] eqn:Hkey3;
      [|discriminate Hk3].
    repeat progress (run; rewrite ?Hn, ?Hcp3, ?Hkey3, ?Hk3).
    eexists _, _. split; [reflexivity|]. run. rewrite <- !app_assoc.
    conjuncts; try reflexivity. exact Hss.
Qed.

(** ** One callback per attempt *)

Lemma reports_once_app (w w1 : World) (o : Outcome unit) (l1 : list Event) :
  trace w1 = trace w ++ l1 ->
  callbacks l1 = [] ->
  reports_once w1 o ->
  reports_once w o.
Proof.
  intros Ht Hc. destruct o as [[] wf|wf|wf]; cbn [reports_once].
  - intros (pre & c & Hwf & Hpre). exists (l1 ++ pre), c. split.
    + rewrite Hwf, Ht, <- !app_assoc. reflexivity.
    + rewrite callbacks_app, Hc, Hpre. reflexivity.
  - intros (l & Hwf & Hl). exists (l1 ++ l). split.
    + rewrite Hwf, Ht, <- !app_assoc. reflexivity.
    + rewrite callbacks_app, Hc, Hl. reflexivity.
  - intros (l & Hwf & Hl). exists (l1 ++ l). split.
    + rewrite Hwf, Ht, <- !app_assoc. reflexivity.
    + rewrite callbacks_app, Hc, Hl. reflexivity.
Qed.

Lemma confirmNewDevice_once (h : AuthenticationHelper)
    (result : Data.AuthenticationResultType) (w : World) :
  reports_once w (confirmNewDevice h result w).
Proof.
  unfold confirmNewDevice, cacheDeviceKeyAndPassword. crunch.
  all: once_done.
Qed.

Lemma getDeviceResponse_once (w : World) :
  reports_once w (getDeviceResponse w).
Proof.
  unfold getDeviceResponse, cacheTokens. crunch.
  all: once_done.
Qed.

(** Closes a path that ends in a call of a sub-flow. *)
Ltac once_call :=
  match goal with
  | |- reports_once _ (getDeviceResponse ?W) =>
      eapply (reports_once_app _ W); [ | |apply (getDeviceResponse_once W)]
  | |- reports_once _ (confirmNewDevice ?h ?r ?W) =>
      eapply (reports_once_app _ W); [ | |apply (confirmNewDevice_once h r W)]
  end;
  [run; exchange_trace|reflexivity].

Lemma passwordVerifierResponse_once (h : AuthenticationHelper) (r : Reply)
    (w : World) :
  reports_once w (passwordVerifierResponse h r w).
Proof.
  unfold passwordVerifierResponse, cacheTokens. crunch_upto.
  all: first [once_done | once_call].
Qed.

(** Every authentication method reports exactly once: when it runs to
    its end it has invoked exactly one callback, as its last step, on
    every path (success, challenge, provider error); when it throws or
    the provider does not answer it has invoked none.  It never calls
    back twice and never ends silently. *)
Theorem authentication_reports_once (w : World) :
  (forall details, reports_once w (authenticateUser details w))
  /\ reports_once w (getDeviceResponse w)
  /\ (forall code, reports_once w (sendMFACode code w))
  /\ (forall answer, reports_once w (sendCustomChallengeAnswer answer w)).
Proof.
  conjuncts.
  - intros details.
    unfold authenticateUser, getCachedDeviceKeyAndPassword. crunch_upto.
    all: try once_done.
    all: match goal with
         | |- reports_once _ (passwordVerifierResponse ?h ?r ?W) =>
             eapply (reports_once_app _ W);
             [ | |apply (passwordVerifierResponse_once h r W)]
         end.
    all: first [run; exchange_trace | reflexivity].
  - apply getDeviceResponse_once.
  - intros code. unfold sendMFACode, cacheTokens. crunch_upto.
    all: first [once_done | once_call].
  - intros answer. unfold sendCustomChallengeAnswer, cacheTokens. crunch.
    all: once_done.
Qed.

(** ** Operations of an authenticated user, with a session *)

(** With a valid session every protected operation sends exactly one
    request, which carries the access token of the in-memory session,
    and invokes the callback at most once, whatever the provider
    answers. *)
Theorem protected_operations_send_access_token (w : World)
    (s : CognitoUserSession) :
  signInUserSession (this w) = Some s ->
  isValid (nowSeconds (time w)) s = true ->
  (forall old new, sends_access_token s w (changePassword old new w))
  /\ sends_access_token s w (enableMFA w)
  /\ sends_access_token s w (disableMFA w)
  /\ sends_access_token s w (deleteUser w)
  /\ (forall attributes, sends_access_token s w (updateAttributes attributes w))
  /\ sends_access_token s w (getUserAttributes w)
  /\ (forall names, sends_access_token s w (deleteAttributes names w))
  /\ (forall name, sends_access_token s w (getAttributeVerificationCode name w))
  /\ (forall name code, sends_access_token s w (verifyAttribute name code w))
  /\ sends_access_token s w (getDevice w)
  /\ sends_access_token s w (forgetDevice w)
  /\ sends_access_token s w (setDeviceStatusRemembered w)
  /\ sends_access_token s w (setDeviceStatusNotRemembered w)
  /\ (forall limit page, sends_access_token s w (listDevices limit page w))
  /\ sends_access_token s w (globalSignOut w).
Proof.
  intros Hs Hv.
  conjuncts; intros;
    match goal with
    | |- sends_access_token _ _ ?o => let hd := head o in unfold hd
    end;
    unfold clearCachedDeviceKeyAndPassword, clearCachedTokens, sends_access_token;
    repeat progress (run; rewrite ?Hs, ?Hv);
    crunch;
    (eexists {| operation := _; params := _ |}, _;
     split; [rewrite <- ?app_assoc; reflexivity|];
     cbn; decide_literals; conjuncts; first [reflexivity | lia]).
Qed.

(** ** When the engine rejects the server's values *)

(** When there is no signature for the challenge the provider returned
    (the SRP engine rejects the server's values, or the secret block
    cannot be decoded), the method throws inside the callback of the
    request that fetched it.  In [authenticateUser] the user name is
    already the canonical one and the cached device secrets are loaded;
    in both methods no further request is sent, nothing is written to
    the cache, and no callback is invoked: the caller is not told that
    the attempt has ended. *)
Theorem rejected_challenge_ends_silently (w : World) (d1 : Data.ResponseData)
    (cp : gmap string string) (rest : list Reply) :
  replies w = Returned (Some d1) :: rest ->
  Data.ChallengeParameters d1 = Some cp ->
  (forall details,
      passwordClaim w details cp = None ->
      exists q1,
        authenticateUser details w
        = Threw {| this := canonicalUser w cp; localStorage := localStorage w;
                   replies := rest; time := S (time w); draws := S (draws w);
                   trace := trace w ++ [Sent q1] |}
        /\ operation q1 = "initiateAuth")
  /\ (deviceClaim (this w) (draws w) (S (time w)) cp = None ->
      exists q1,
        getDeviceResponse w
        = Threw {| this := this w; localStorage := localStorage w;
                   replies := rest; time := S (time w); draws := S (draws w);
                   trace := trace w ++ [Sent q1] |}
        /\ param (params q1) "ChallengeName" = Some (PVal (str "DEVICE_SRP_AUTH"))).
Proof.
  intros Hr Hcp. split.
  - intros details Hk. unfold passwordClaim in Hk.
    unfold authenticateUser, canonicalUser.
    repeat progress (run; rewrite ?Hr, ?Hcp).
    match goal with
    | |- context [getCachedDeviceKeyAndPassword ?w0] =>
        destruct (getCachedDeviceKeyAndPassword_done w0)
          as (u2 & E & Hu2 & Hu & Hp & _)
    end.
    rewrite E. run. rewrite Hu, Hp, Hu2.
    destruct (derive_shared_key _ _ _ _ _); run; rewrite ?Hk; run;
      eexists; split; reflexivity.
  - intros Hk. unfold deviceClaim in Hk. unfold getDeviceResponse.
    repeat progress (run; rewrite ?Hr, ?Hcp).
    destruct (derive_shared_key _ _ _ _ _); run; rewrite ?Hk; run;
      (eexists {| operation := _; params := _ |}; split; [reflexivity|];
       cbn; decide_literals; reflexivity).
Qed.

(** ** The attributes of the user *)


(** ** The pool name *)

Lemma split_underscore_plain (s : string) :
  no_underscore s = true -> split_underscore s = [s].
Proof.
  induction s as [|c s IH]; cbn [no_underscore split_underscore]; [reflexivity|].
  destruct (bool_decide (c = "_"%char)); cbn [negb andb]; [discriminate|].
  intros H. now rewrite (IH H).
Qed.

Lemma split_underscore_app (region rest : string) :
  no_underscore region = true ->
  split_underscore (region +:+ "_" +:+ rest) = region :: split_underscore rest.
Proof.
  change ("_" +:+ rest) with (String "_"%char rest).
  induction region as [|c region IH]; [reflexivity|].
  change (String c region +:+ String "_"%char rest)
    with (String c (region +:+ String "_"%char rest)).
  cbn [no_underscore split_underscore].
  destruct (bool_decide (c = "_"%char)); cbn [negb andb]; [discriminate|].
  intros H. now rewrite (IH H).
Qed.

(** [getUserPoolId().split('_')[1]]: for a pool id 'region_name' the
    name the SRP helper is built with is 'name', also when more
    underscore-separated parts follow; for a pool id without an
    underscore it is undefined. *)
Theorem poolName_is_second_part (region name : string) (p : CognitoUserPool) :
  no_underscore region = true ->
  no_underscore name = true ->
  (userPoolId p = region +:+ "_" +:+ name -> poolName p = str name)
  /\ (forall more, userPoolId p = region +:+ "_" +:+ name +:+ "_" +:+ more ->
      poolName p = str name)
  /\ (userPoolId p = region -> poolName p = undefined).
Proof.
  intros Hr Hn. unfold poolName, getUserPoolId. conjuncts.
  - intros ->. rewrite split_underscore_app, split_underscore_plain by assumption.
    reflexivity.
  - intros more ->. rewrite !split_underscore_app by assumption. reflexivity.
  - intros ->. rewrite split_underscore_plain by assumption. reflexivity.
Qed.

End MoreProperties.

(** * The properties on the scenario *)

#[local] Existing Instance Scenario.demo.

(** ** Where the code departs from the specification *)


(** A login on a new device whose [confirmDevice] call fails: the tokens
    are in memory and in the cache, and the one callback invoked is
    [onFailure]. *)
Lemma confirmDevice_error_counterexample :
  callbacks
    (trace (outcome_world
              (authenticateUser Scenario.details Scenario.new_device_world)))
  = [onFailure [AErr Scenario.confirm_error]]
  /\ signInUserSession
       (this (outcome_world
                (authenticateUser Scenario.details Scenario.new_device_world)))
     = Some (session_of Scenario.tokens_new_device)
  /\ localStorage
       (outcome_world (authenticateUser Scenario.details Scenario.new_device_world))
       !! "CognitoIdentityServiceProvider.c1.alice.accessToken"
     = Some "access-token".
Proof. vm_compute. repeat split. Qed.

(** ** Instances *)

Lemma protected_operations_need_session_witness :
  not_authenticated (Scenario.world Scenario.alice ∅ [])
  /\ enableMFA (Scenario.world Scenario.alice ∅ [])
     = refused (Scenario.world Scenario.alice ∅ []).
Proof.
  split; [left; reflexivity|].
  apply (protected_operations_need_session (Scenario.world Scenario.alice ∅ [])).
  left; reflexivity.
Defined.

Lemma getSession_without_cached_idToken_witness :
  getSession (Scenario.world Scenario.alice ∅ [])
  = Done tt (Scenario.world Scenario.alice ∅ []).
Proof.
  apply (getSession_without_cached_idToken (Scenario.world Scenario.alice ∅ [])).
  - reflexivity.
  - left; reflexivity.
  - reflexivity.
Defined.


Lemma confirmDevice_error_is_reported_as_failure_witness :
  (let u :=
     set_username (prop Scenario.srp_parameters "USER_ID_FOR_SRP")
       (this Scenario.new_device_world)
     in
   ∃ (wf : World) (q1 q2 q3 : Request),
     authenticateUser Scenario.details Scenario.new_device_world = Done () wf
     ∧ trace wf =
       trace Scenario.new_device_world ++
       [Sent q1; Sent q2] ++
       tokenWrites u (session_of Scenario.tokens_new_device) ++
       [Sent q3; Invoked (onFailure [AErr Scenario.confirm_error])]
       ∧ operation q3 = "confirmDevice"
         ∧ localStorage wf =
           withTokens u (session_of Scenario.tokens_new_device)
             (localStorage Scenario.new_device_world)
           ∧ session_cached wf (session_of Scenario.tokens_new_device))
  ∧ ∃ (wf : World) (q1 q3 : Request),
      sendMFACode (str "123456") Scenario.mfa_new_device_world = Done () wf
      ∧ trace wf =
        trace Scenario.mfa_new_device_world ++
        [Sent q1] ++
        tokenWrites (this Scenario.mfa_new_device_world)
          (session_of Scenario.tokens_new_device) ++
        [Sent q3; Invoked (onFailure [AErr Scenario.confirm_error])]
        ∧ operation q3 = "confirmDevice"
          ∧ localStorage wf =
            withTokens (this Scenario.mfa_new_device_world)
              (session_of Scenario.tokens_new_device)
              (localStorage Scenario.mfa_new_device_world)
            ∧ session_cached wf (session_of Scenario.tokens_new_device).
Proof.
  refine
    (conj (proj1 (confirmDevice_error_is_reported_as_failure
       Scenario.new_device_world Scenario.tokens_new_device {| Data.DeviceGroupKey
       := str "group-1"; Data.DeviceKey := str "device-1" |} Scenario.confirm_error
       [] _) Scenario.details Scenario.password_challenge (Scenario.result_of
       Scenario.tokens_new_device) Scenario.srp_parameters
       "hmac(hkdf(alice,Secret123!),abc,alice)" _ _ _ _ _) (proj2
       (confirmDevice_error_is_reported_as_failure Scenario.mfa_new_device_world
       Scenario.tokens_new_device {| Data.DeviceGroupKey := str "group-1";
       Data.DeviceKey := str "device-1" |} Scenario.confirm_error [] _) (str
       "123456") (Scenario.result_of Scenario.tokens_new_device) _ _));
    reflexivity.
Defined.


Lemma sendMFACode_treats_reply_as_final_witness :
  ∃ (w' : World) (q : Request),
      sendMFACode (str "123456") Scenario.mfa_challenge_world = Threw w'
      ∧ requests (trace w') = requests (trace Scenario.mfa_challenge_world) ++ [q]
        ∧ param (params q) "ChallengeName" = Some (PVal (str "SMS_MFA"))
          ∧ callbacks (trace w') = callbacks (trace Scenario.mfa_challenge_world).
Proof.
  refine
    (proj1 (sendMFACode_treats_reply_as_final Scenario.mfa_challenge_world (str "123456")
            (Scenario.challenge_named "DEVICE_SRP_AUTH") [] _) _);
    reflexivity.
Defined.

Lemma getDeviceResponse_uses_device_secrets_witness :
  let s := session_of Scenario.tokens_new_device in
  ∃ (q1 : Request) (m : gmap string jsval) (wf : World),
    getDeviceResponse Scenario.device_world = Done () wf
    ∧ trace wf =
      trace Scenario.device_world ++
      [Sent q1;
       Sent
         {|
           operation := "respondToAuthChallenge";
           params :=
             [("ChallengeName", PVal (str "DEVICE_PASSWORD_VERIFIER"));
              ("ClientId", PVal (str (getClientId (pool (this Scenario.device_world)))));
              ("ChallengeResponses", PObj m);
              ("Session", PVal (Data.Session Scenario.password_challenge))]
         |}] ++
      tokenWrites (this Scenario.device_world) s ++
      [Invoked (onSuccess [ASession (Some s)])]
      ∧ operation q1 = "respondToAuthChallenge"
        ∧ param (params q1) "ChallengeName" = Some (PVal (str "DEVICE_SRP_AUTH"))
          ∧ m !! "PASSWORD_CLAIM_SIGNATURE" =
            Some (str "hmac(hkdf(device-1,device-password),group-1,device-1)")
            ∧ m !! "TIMESTAMP" =
              Some (str (getNowString (S (time Scenario.device_world))))
              ∧ m !! "DEVICE_KEY" = Some (deviceKey (this Scenario.device_world))
                ∧ signInUserSession (this wf) = Some s
                  ∧ localStorage wf =
                    withTokens (this Scenario.device_world) s
                      (localStorage Scenario.device_world).
Proof.
  refine
    (getDeviceResponse_uses_device_secrets Scenario.device_world
       Scenario.password_challenge (Scenario.result_of Scenario.tokens_new_device)
       Scenario.srp_parameters "hkdf(device-1,device-password)"
       "hmac(hkdf(device-1,device-password),group-1,device-1)"
       Scenario.tokens_new_device [] _ _ _ _ _);
    reflexivity.
Defined.

Lemma refreshSession_retains_refresh_token_witness :
  let kept :=
      match Data.RefreshToken Scenario.tokens_without_refresh with
      | Some provided => provided
      | None => getToken Scenario.old_refresh_token
      end in
    let s :=
      {|
        sessIdToken :=
          {| idJwtToken := Data.IdToken Scenario.tokens_without_refresh |};
        sessAccessToken :=
          {| accessJwtToken := Data.AccessToken Scenario.tokens_without_refresh |};
        sessRefreshToken := {| token := kept |}
      |} in
    ∃ (q : Request) (wf : World),
      refreshSession Scenario.old_refresh_token Scenario.refresh_world = Done () wf
      ∧ operation q = "initiateAuth"
        ∧ param (params q) "AuthFlow" = Some (PVal (str "REFRESH_TOKEN_AUTH"))
          ∧ signInUserSession (this wf) = Some s
            ∧ getToken (getRefreshToken s) = kept
              ∧ localStorage wf =
                withTokens (this wf) s (localStorage Scenario.refresh_world)
                ∧ localStorage wf !! userKey (this wf) "refreshToken" =
                  Some (to_string kept)
                  ∧ trace wf =
                    trace Scenario.refresh_world ++
                    Sent q
                    :: tokenWrites (this wf) s ++
                       [Invoked (callback [ANull; ASession (Some s)])].
Proof.
  refine
    (refreshSession_retains_refresh_token Scenario.refresh_world
         Scenario.old_refresh_token (Scenario.result_of Scenario.tokens_without_refresh)
         Scenario.tokens_without_refresh [] _ _);
    reflexivity.
Defined.


Lemma forgetDevice_keeps_deviceGroupKey_witness :
  ∃ (q : Request) (wf : World),
      forgetDevice Scenario.forget_world = Done () wf
      ∧ deviceKey (this wf) = null
        ∧ randomPassword (this wf) = null
          ∧ deviceGroupkey (this wf) = null
            ∧ deviceGroupKey (this wf) = deviceGroupKey (this Scenario.forget_world)
              ∧ localStorage wf =
                delete (userKey (this Scenario.forget_world) "deviceGroupKey")
                  (delete (userKey (this Scenario.forget_world) "randomPasswordKey")
                     (delete (userKey (this Scenario.forget_world) "deviceKey")
                        (localStorage Scenario.forget_world)))
                ∧ localStorage wf
                  !! userKey (this Scenario.forget_world) "deviceKey" = None
                  ∧ localStorage wf
                    !! userKey (this Scenario.forget_world) "randomPasswordKey" =
                    None
                    ∧ localStorage wf
                      !! userKey (this Scenario.forget_world) "deviceGroupKey" =
                      None
                      ∧ operation q = "forgetDevice"
                        ∧ trace wf =
                          trace Scenario.forget_world ++
                          [Sent q;
                           RemoveItem
                             (userKey (this Scenario.forget_world) "deviceKey");
                           RemoveItem
                             (userKey (this Scenario.forget_world)
                                "randomPasswordKey");
                           RemoveItem
                             (userKey (this Scenario.forget_world) "deviceGroupKey");
                           Invoked (onSuccess [AStr "SUCCESS"])].
Proof.
  refine
    (forgetDevice_keeps_deviceGroupKey Scenario.forget_world
         (session_of Scenario.tokens) None [] _ _ _);
    reflexivity.
Defined.

(** ** Instances of the further properties *)

Lemma device_secrets_round_trip_witness :
  ∃ w1 w2 : World,
    cacheDeviceKeyAndPassword (Scenario.world Scenario.alice_on_device ∅ []) =
    Done () w1
    ∧ this w1 = this (Scenario.world Scenario.alice_on_device ∅ [])
      ∧ getCachedDeviceKeyAndPassword (set_this Scenario.alice w1) = Done () w2
        ∧ deviceKey (this w2) =
          str
            (to_string (deviceKey (this (Scenario.world Scenario.alice_on_device ∅ []))))
          ∧ randomPassword (this w2) =
            str
              (to_string
                 (randomPassword (this (Scenario.world Scenario.alice_on_device ∅ []))))
            ∧ deviceGroupKey (this w2) =
              str
                (to_string
                   (deviceGroupKey (this (Scenario.world Scenario.alice_on_device ∅ []))))
              ∧ localStorage w2 = localStorage w1.
Proof.
  refine
    (device_secrets_round_trip (Scenario.world Scenario.alice_on_device ∅ [])
       Scenario.alice _ _ _);
    first [reflexivity | vm_compute; discriminate].
Defined.

Lemma getCachedDeviceKeyAndPassword_without_deviceKey_witness :
  getCachedDeviceKeyAndPassword (Scenario.world Scenario.alice ∅ []) =
  Done () (Scenario.world Scenario.alice ∅ []).
Proof.
  refine
    (getCachedDeviceKeyAndPassword_without_deviceKey (Scenario.world Scenario.alice
       ∅ []) _);
    reflexivity.
Defined.

Lemma login_on_new_device_stores_secrets_witness :
  let helper :=
    generateHashDevice
      (helperOf (poolName (pool (this Scenario.confirmed_device_world)))
         Scenario.confirmed_device_world)
      (Data.DeviceGroupKey
         {| Data.DeviceGroupKey := str "group-1"; Data.DeviceKey := str "device-1" |})
      (Data.DeviceKey
         {| Data.DeviceGroupKey := str "group-1"; Data.DeviceKey := str "device-1" |})
    in
  let client := getClientId (pool (this Scenario.confirmed_device_world)) in
  let user := prop Scenario.srp_parameters "USER_ID_FOR_SRP" in
  let s := session_of Scenario.tokens_new_device in
  ∃ (wf : World) (q1 q2 : Request) (cfg : gmap string jsval),
    authenticateUser Scenario.details Scenario.confirmed_device_world = Done () wf
    ∧ deviceKey (this wf) =
      Data.DeviceKey
        {| Data.DeviceGroupKey := str "group-1"; Data.DeviceKey := str "device-1" |}
      ∧ deviceGroupKey (this wf) =
        Data.DeviceGroupKey
          {| Data.DeviceGroupKey := str "group-1"; Data.DeviceKey := str "device-1" |}
        ∧ randomPassword (this wf) = getRandomPassword helper
          ∧ localStorage wf !! cacheKey client user "deviceKey" =
            Some
              (to_string
                 (Data.DeviceKey
                    {|
                      Data.DeviceGroupKey := str "group-1";
                      Data.DeviceKey := str "device-1"
                    |}))
            ∧ localStorage wf !! cacheKey client user "randomPasswordKey" =
              Some (to_string (getRandomPassword helper))
              ∧ localStorage wf !! cacheKey client user "deviceGroupKey" =
                Some
                  (to_string
                     (Data.DeviceGroupKey
                        {|
                          Data.DeviceGroupKey := str "group-1";
                          Data.DeviceKey := str "device-1"
                        |}))
                ∧ localStorage wf !! cacheKey client user "accessToken" =
                  Some (to_string (Data.AccessToken Scenario.tokens_new_device))
                  ∧ cfg !! "Salt" = Some (str (getSaltDevices helper))
                    ∧ cfg !! "PasswordVerifier" = Some (str (getVerifierDevices helper))
                      ∧ trace wf =
                        trace Scenario.confirmed_device_world ++
                        Sent q1
                        :: Sent q2
                           :: tokenWrites
                                (set_username user
                                   (this Scenario.confirmed_device_world))
                                s ++
                              [Sent
                                 {|
                                   operation := "confirmDevice";
                                   params :=
                                     [("DeviceKey",
                                       PVal
                                         (Data.DeviceKey
                                            {|
                                              Data.DeviceGroupKey := str "group-1";
                                              Data.DeviceKey := str "device-1"
                                            |}));
                                      ("AccessToken",
                                       PVal
                                         (Data.AccessToken Scenario.tokens_new_device));
                                      ("DeviceSecretVerifierConfig", PObj cfg);
                                      ("DeviceName", PVal (str userAgent))]
                                 |};
                               SetItem (cacheKey client user "deviceKey")
                                 (to_string
                                    (Data.DeviceKey
                                       {|
                                         Data.DeviceGroupKey := str "group-1";
                                         Data.DeviceKey := str "device-1"
                                       |}));
                               SetItem (cacheKey client user "randomPasswordKey")
                                 (to_string (getRandomPassword helper));
                               SetItem (cacheKey client user "deviceGroupKey")
                                 (to_string
                                    (Data.DeviceGroupKey
                                       {|
                                         Data.DeviceGroupKey := str "group-1";
                                         Data.DeviceKey := str "device-1"
                                       |}));
                               Invoked
                                 (onSuccess
                                    (ASession (Some s)
                                     :: (if
                                          bool_decide
                                            (Data.UserConfirmationNecessary
                                               Scenario.confirmation_necessary =
                                             Some true)
                                         then [ABool true]
                                         else [])))].
Proof.
  refine
    (login_on_new_device_stores_secrets Scenario.confirmed_device_world
       Scenario.details Scenario.password_challenge (Scenario.result_of
       Scenario.tokens_new_device) Scenario.confirmation_necessary
       Scenario.srp_parameters "hmac(hkdf(alice,Secret123!),abc,alice)"
       Scenario.tokens_new_device {| Data.DeviceGroupKey := str "group-1";
       Data.DeviceKey := str "device-1" |} [] _ _ _ _ _ _);
    reflexivity.
Defined.

Lemma login_on_remembered_device_uses_cache_witness :
  ∃ (w2 : World) (q1 : Request) (m : gmap string jsval),
    authenticateUser Scenario.details Scenario.remembered_login_world =
    getDeviceResponse w2
    ∧ username (this w2) = prop Scenario.srp_parameters "USER_ID_FOR_SRP"
      ∧ deviceKey (this w2) = str "device-1"
        ∧ randomPassword (this w2) =
          getItem (localStorage Scenario.remembered_login_world)
            (cacheKey (getClientId (pool (this Scenario.remembered_login_world)))
               (prop Scenario.srp_parameters "USER_ID_FOR_SRP") "randomPasswordKey")
          ∧ deviceGroupKey (this w2) =
            getItem (localStorage Scenario.remembered_login_world)
              (cacheKey (getClientId (pool (this Scenario.remembered_login_world)))
                 (prop Scenario.srp_parameters "USER_ID_FOR_SRP") "deviceGroupKey")
            ∧ localStorage w2 = localStorage Scenario.remembered_login_world
              ∧ replies w2 = []
                ∧ trace w2 =
                  trace Scenario.remembered_login_world ++
                  [Sent q1;
                   Sent
                     (passwordVerifierRequest
                        (getClientId (pool (this Scenario.remembered_login_world))) m
                        (Data.Session Scenario.password_challenge))]
                  ∧ m !! "DEVICE_KEY" = Some (str "device-1").
Proof.
  refine
    (login_on_remembered_device_uses_cache Scenario.remembered_login_world
       Scenario.details Scenario.password_challenge (Scenario.challenge_named
       "DEVICE_SRP_AUTH") Scenario.srp_parameters
       "hmac(hkdf(alice,Secret123!),abc,alice)" "device-1" [] _ _ _ _ _ _);
    first [reflexivity | vm_compute; discriminate].
Defined.

Lemma cached_session_is_resumed_witness :
  ∃ w1 : World,
    cacheTokens (Scenario.world Scenario.alice_signed_in ∅ []) = Done () w1
    ∧ replies w1 = replies (Scenario.world Scenario.alice_signed_in ∅ [])
      ∧ getSession (set_this Scenario.alice w1) =
        Done ()
          (log
             (Invoked
                (callback
                   [ANull; ASession (Some (storedSession (session_of Scenario.tokens)))]))
             (set_this
                (set_signInUserSession
                   (Some (storedSession (session_of Scenario.tokens))) Scenario.alice)
                w1)).
Proof.
  refine
    (cached_session_is_resumed (Scenario.world Scenario.alice_signed_in ∅ [])
       (session_of Scenario.tokens) Scenario.alice _ _ _ _ _ _ _);
    first [reflexivity | vm_compute; discriminate].
Defined.

Lemma getSession_refreshes_expired_session_witness :
  getSession Scenario.stale_world =
  refreshSession {| token := str "refresh-token" |} Scenario.stale_world.
Proof.
  refine
    (getSession_refreshes_expired_session Scenario.stale_world "stale-id-token"
       "refresh-token" _ _ _ _ _ _);
    first [reflexivity | left; reflexivity | vm_compute; discriminate].
Defined.

Lemma refreshSession_adopts_last_user_witness :
  let client := getClientId (pool (this Scenario.last_user_world)) in
  let cachedKey :=
    getItem (localStorage Scenario.last_user_world)
      (cacheKey client (str "bob") "deviceKey")
    in
  ∃ (m : gmap string jsval) (wf : World) (l : list Event),
    refreshSession Scenario.old_refresh_token Scenario.last_user_world = Done () wf
    ∧ username (this wf) = str "bob"
      ∧ deviceKey (this wf) = cachedKey
        ∧ trace wf =
          trace Scenario.last_user_world ++ Sent (refreshRequest client m) :: l
          ∧ m !! "REFRESH_TOKEN" = Some (getToken Scenario.old_refresh_token)
            ∧ m !! "DEVICE_KEY" = Some cachedKey
              ∧ localStorage wf !! cacheKey client (str "bob") "idToken" =
                Some (to_string (Data.IdToken Scenario.tokens))
                ∧ localStorage wf !! cacheKey client (str "bob") "accessToken" =
                  Some (to_string (Data.AccessToken Scenario.tokens))
                  ∧ localStorage wf !! lastAuthUserKey client = Some "bob".
Proof.
  refine
    (refreshSession_adopts_last_user Scenario.last_user_world
       Scenario.old_refresh_token "bob" (Scenario.result_of Scenario.tokens)
       Scenario.tokens [] _ _ _ _);
    first [reflexivity | vm_compute; discriminate].
Defined.

Lemma refreshSession_error_witness :
  ∃ (q : Request) (wf : World),
    refreshSession Scenario.old_refresh_token
      (Scenario.world Scenario.alice ∅ [Failed Scenario.confirm_error]) =
    Done () wf
    ∧ trace wf =
      trace (Scenario.world Scenario.alice ∅ [Failed Scenario.confirm_error]) ++
      [Sent q; Invoked (callback [AErr Scenario.confirm_error; ANull])]
      ∧ operation q = "initiateAuth"
        ∧ localStorage wf =
          localStorage (Scenario.world Scenario.alice ∅ [Failed Scenario.confirm_error])
          ∧ signInUserSession (this wf) =
            signInUserSession
              (this (Scenario.world Scenario.alice ∅ [Failed Scenario.confirm_error]))
            ∧ replies wf = [].
Proof.
  refine
    (refreshSession_error (Scenario.world Scenario.alice ∅ [Failed
       Scenario.confirm_error]) Scenario.old_refresh_token Scenario.confirm_error []
       _);
    reflexivity.
Defined.

Lemma refreshSession_null_data_witness :
  ∃ (q : Request) (wf : World),
    refreshSession Scenario.old_refresh_token
      (Scenario.world Scenario.alice ∅ [Returned None]) =
    Done () wf
    ∧ trace wf = trace (Scenario.world Scenario.alice ∅ [Returned None]) ++ [Sent q]
      ∧ localStorage wf = localStorage (Scenario.world Scenario.alice ∅ [Returned None])
        ∧ signInUserSession (this wf) =
          signInUserSession (this (Scenario.world Scenario.alice ∅ [Returned None])).
Proof.
  refine
    (refreshSession_null_data (Scenario.world Scenario.alice ∅ [Returned None])
       Scenario.old_refresh_token [] _);
    reflexivity.
Defined.

Lemma globalSignOut_keeps_session_in_memory_witness :
  ∃ (q : Request) (wf : World),
    globalSignOut (Scenario.world Scenario.alice_signed_in ∅ [Returned None]) =
    Done () wf
    ∧ this wf = this (Scenario.world Scenario.alice_signed_in ∅ [Returned None])
      ∧ Forall (λ k : string, localStorage wf !! k = None)
          (tokenKeys (this (Scenario.world Scenario.alice_signed_in ∅ [Returned None])))
        ∧ param (params q) "AccessToken" =
          Some (PVal (accessJwtToken (getAccessToken (session_of Scenario.tokens))))
          ∧ trace wf =
            trace (Scenario.world Scenario.alice_signed_in ∅ [Returned None]) ++
            Sent q
            :: map RemoveItem
                 (tokenKeys
                    (this (Scenario.world Scenario.alice_signed_in ∅ [Returned None]))) ++
               [Invoked (onSuccess [AStr "SUCCESS"])].
Proof.
  refine
    (globalSignOut_keeps_session_in_memory (Scenario.world Scenario.alice_signed_in
       ∅ [Returned None]) (session_of Scenario.tokens) None [] _ _ _);
    reflexivity.
Defined.

Lemma getSession_after_signOut_witness :
  ∃ w1 : World,
    signOut (Scenario.world Scenario.alice_signed_in Scenario.stale_storage []) =
    Done () w1 ∧ getSession w1 = Done () w1.
Proof.
  refine
    (getSession_after_signOut (Scenario.world Scenario.alice_signed_in
       Scenario.stale_storage []) _);
    reflexivity.
Defined.


Lemma account_operations_need_no_session_witness :
  ∃ (q : Request) (c : Callback),
    resendConfirmationCode (Scenario.world Scenario.alice ∅ [Returned None]) =
    Done ()
      {|
        this := this (Scenario.world Scenario.alice ∅ [Returned None]);
        localStorage := localStorage (Scenario.world Scenario.alice ∅ [Returned None]);
        replies := [];
        time := S (time (Scenario.world Scenario.alice ∅ [Returned None]));
        draws := draws (Scenario.world Scenario.alice ∅ [Returned None]);
        trace :=
          trace (Scenario.world Scenario.alice ∅ [Returned None]) ++ [Sent q; Invoked c]
      |}
    ∧ param (params q) "ClientId" =
      Some
        (PVal
           (str
              (getClientId
                 (pool (this (Scenario.world Scenario.alice ∅ [Returned None]))))))
      ∧ param (params q) "Username" =
        Some (PVal (username (this (Scenario.world Scenario.alice ∅ [Returned None]))))
        ∧ param (params q) "AccessToken" = None.
Proof.
  refine
    (proj1 (proj2 (account_operations_need_no_session (Scenario.world Scenario.alice
       ∅ [Returned None]) (Returned None) [] _)));
    reflexivity.
Defined.

Lemma provider_error_ends_the_attempt_witness :
  ∃ (wf : World) (l : list Event),
    authenticateUser Scenario.details Scenario.refused_password_world = Done () wf
    ∧ trace wf = trace Scenario.refused_password_world ++ l
      ∧ callbacks l = [onFailure [AErr Scenario.confirm_error]]
        ∧ length (requests l) = S (length [Returned (Some Scenario.password_challenge)])
          ∧ localStorage wf = localStorage Scenario.refused_password_world
            ∧ signInUserSession (this wf) =
              signInUserSession (this Scenario.refused_password_world) ∧
              replies wf = [].
Proof.
  refine
    (provider_error_ends_the_attempt Scenario.refused_password_world
       Scenario.details [Returned (Some Scenario.password_challenge)]
       Scenario.confirm_error [] _ _);
    first [ reflexivity
          | apply (before_passwordVerifier _ _ _ Scenario.srp_parameters
                     "hmac(hkdf(alice,Secret123!),abc,alice)");
            reflexivity ].
Defined.

Lemma protected_operations_send_access_token_witness :
  sends_access_token (session_of Scenario.tokens)
    (Scenario.world Scenario.alice_signed_in ∅ [Returned None])
    (enableMFA (Scenario.world Scenario.alice_signed_in ∅ [Returned None])).
Proof.
  refine
    (proj1 (proj2 (protected_operations_send_access_token (Scenario.world
       Scenario.alice_signed_in ∅ [Returned None]) (session_of Scenario.tokens) _
       _)));
    reflexivity.
Defined.

Lemma poolName_is_second_part_witness :
  poolName Scenario.pool_abc = str "abc".
Proof.
  refine
    (proj1 (poolName_is_second_part "p" "abc" Scenario.pool_abc _ _) _);
    reflexivity.
Defined.

Lemma login_caches_tokens_under_fixed_prefix_witness :
  let client := getClientId (pool (this Scenario.login_world)) in
  let user := to_string (prop Scenario.srp_parameters "USER_ID_FOR_SRP") in
  ∃ (wf : World) (l : list Event),
    authenticateUser Scenario.details Scenario.login_world = Done () wf
    ∧ trace wf = trace Scenario.login_world ++ l
      ∧ callbacks l = [onSuccess [ASession (Some (session_of Scenario.tokens))]]
        ∧ localStorage wf
          !! ("CognitoIdentityServiceProvider." +:+
              client +:+ "." +:+ user +:+ ".idToken") =
          Some (to_string (Data.IdToken Scenario.tokens))
          ∧ localStorage wf
            !! ("CognitoIdentityServiceProvider." +:+
                client +:+ "." +:+ user +:+ ".accessToken") =
            Some (to_string (Data.AccessToken Scenario.tokens))
            ∧ localStorage wf
              !! ("CognitoIdentityServiceProvider." +:+
                  client +:+ "." +:+ user +:+ ".refreshToken") =
              Some (to_string (default undefined (Data.RefreshToken Scenario.tokens)))
              ∧ localStorage wf
                !! ("CognitoIdentityServiceProvider." +:+ client +:+ ".LastAuthUser") =
                Some user
                ∧ ∀ k v : string,
                    In (SetItem k v) l
                    → ∃ suffix : string,
                        k = "CognitoIdentityServiceProvider." +:+ client +:+ suffix.
Proof.
  refine
    (login_caches_tokens_under_fixed_prefix Scenario.login_world Scenario.details
       Scenario.password_challenge (Scenario.result_of Scenario.tokens)
       Scenario.srp_parameters "hmac(hkdf(alice,Secret123!),abc,alice)"
       Scenario.tokens [] _ _ _ _ _ _);
    reflexivity.
Defined.

Lemma rejected_challenge_ends_silently_witness :
  ∃ q1 : Request,
    authenticateUser Scenario.details Scenario.zero_challenge_world =
    Threw
      {|
        this := canonicalUser Scenario.zero_challenge_world Scenario.zero_parameters;
        localStorage := localStorage Scenario.zero_challenge_world;
        replies := [Returned (Some (Scenario.result_of Scenario.tokens))];
        time := S (time Scenario.zero_challenge_world);
        draws := S (draws Scenario.zero_challenge_world);
        trace := trace Scenario.zero_challenge_world ++ [Sent q1]
      |}
    ∧ operation q1 = "initiateAuth".
Proof.
  refine
    (proj1 (rejected_challenge_ends_silently Scenario.zero_challenge_world
       Scenario.zero_challenge Scenario.zero_parameters [Returned (Some
       (Scenario.result_of Scenario.tokens))] _ _) Scenario.details _);
    reflexivity.
Defined.

